(** * fed_rf_mk.utils: notebook helpers of the federated random-forest experiments

    A shallow embedding of [src/fed_rf_mk/utils.py].

    Conventions of the model.
    - A Python [str] is a [string] whose characters are the code points below
      256; [str.lower] is exact on that repertoire.
    - A Python [dict] that is iterated is an association list in insertion
      order.
    - A raised exception is the [Raise] result; a function with side effects
      is a state transformer that returns its result together with the state
      it leaves behind, also when it raises.
    - The file system is POSIX without symbolic links, permissions and
      length limits; paths hold no NUL character. *)

From Stdlib Require Import Ascii String ZArith.
From Stdlib.Strings Require Import Byte.
From stdpp Require Import gmap strings list fin_maps.

Local Open Scope string_scope.
Local Open Scope list_scope.

(** ** Exceptions and results *)

Inductive exn : Type :=
| IndexError
| KeyError
| UnboundLocalError
| FileNotFoundError
| FileExistsError
| NotADirectoryError
| IsADirectoryError
| PickleError
| AttributeError
| ValueError.

Inductive result (A : Type) : Type :=
| Ok (a : A)
| Raise (e : exn).
Arguments Ok {A} a.
Arguments Raise {A} e.

Definition is_ok {A} (r : result A) : bool :=
  match r with Ok _ => true | Raise _ => false end.

(** ** Python strings *)

Module PyStr.

(** [c.lower()] for one code point below 256: the ASCII capitals and the
    Latin-1 capitals U+00C0..U+00DE (U+00D7, the multiplication sign, is
    not a letter) move up by 32. *)
Definition lower_char (c : ascii) : ascii :=
  let n := N_of_ascii c in
  if ((65 <=? n) && (n <=? 90))%N
     || ((192 <=? n) && (n <=? 222) && negb (n =? 215))%N
  then ascii_of_N (n + 32)
  else c.

(** [s.lower()] *)
Fixpoint lower (s : string) : string :=
  match s with
  | EmptyString => EmptyString
  | String c s' => String (lower_char c) (lower s')
  end.

(** [s.startswith(p)] *)
Fixpoint startswith (p s : string) : bool :=
  match p, s with
  | EmptyString, _ => true
  | String _ _, EmptyString => false
  | String a p', String b s' => if Ascii.eqb a b then startswith p' s' else false
  end.

(** The scan of [s.replace(old, new)] for a non-empty [old]: left to right,
    non-overlapping; [skip] counts the characters of a match still to be
    passed over. *)
Fixpoint replace_scan (old new : string) (skip : nat) (s : string) : string :=
  match s with
  | EmptyString => EmptyString
  | String c s' =>
      match skip with
      | S k => replace_scan old new k s'
      | O =>
          if startswith old s
          then new +:+ replace_scan old new (String.length old - 1) s'
          else String c (replace_scan old new 0 s')
      end
  end.

(** [s.replace("", new)] puts [new] before every character and at the end. *)
Fixpoint intersperse (new s : string) : string :=
  match s with
  | EmptyString => new
  | String c s' => new +:+ String c (intersperse new s')
  end.

(** [s.replace(old, new)] *)
Definition replace (old new s : string) : string :=
  match old with
  | EmptyString => intersperse new s
  | String _ _ => replace_scan old new 0 s
  end.

(** [sub in s] *)
Fixpoint contains (sub s : string) : bool :=
  startswith sub s
  || match s with
     | EmptyString => false
     | String _ s' => contains sub s'
     end.

(** [c in s] for one character. *)
Fixpoint has_char (c : ascii) (s : string) : bool :=
  match s with
  | EmptyString => false
  | String a s' => Ascii.eqb a c || has_char c s'
  end.

End PyStr.

(** ** Model file names *)

(** [get_model_file(datasite_name)]:
    [f"{datasite_name.replace('.', '').replace(' ', '_').lower()}_model.jbl"] *)
Definition get_model_file (datasite_name : string) : string :=
  PyStr.lower (PyStr.replace " " "_" (PyStr.replace "." "" datasite_name))
  +:+ "_model.jbl".

(** The normalisation as the specification words it: lowercase the name and
    remove every space and every dot, then the suffix. *)
Module SpecWording.

Fixpoint strip_spaces_dots (s : string) : string :=
  match s with
  | EmptyString => EmptyString
  | String c s' =>
      if Ascii.eqb c " " || Ascii.eqb c "."
      then strip_spaces_dots s'
      else String c (strip_spaces_dots s')
  end.

Definition modelFilename (siteName : string) : string :=
  strip_spaces_dots (PyStr.lower siteName) +:+ "_model.jbl".

End SpecWording.

(** What replacing a one-character pattern does: each character is looked at
    alone. *)
Fixpoint subst_char (a : ascii) (new s : string) : string :=
  match s with
  | EmptyString => EmptyString
  | String c s' =>
      (if Ascii.eqb a c then new else String c EmptyString)
      +:+ subst_char a new s'
  end.

(** What the code does to one character of the name: a dot disappears, a
    space becomes an underscore, anything else is lowercased. *)
Definition normalise_char (c : ascii) : string :=
  if Ascii.eqb c "." then ""
  else if Ascii.eqb c " " then "_"
  else String (PyStr.lower_char c) "".

Fixpoint normalise (s : string) : string :=
  match s with
  | EmptyString => EmptyString
  | String c s' => normalise_char c +:+ normalise s'
  end.

(** ** Stateful code: state and exceptions *)

(** A computation over a state [St]: it returns or raises, and leaves a state
    behind in both cases (what was mutated before an exception stays
    mutated). *)
Definition M (St A : Type) : Type := St -> result A * St.

Definition ret {St A} (a : A) : M St A := fun s => (Ok a, s).

Definition raise {St A} (e : exn) : M St A := fun s => (Raise e, s).

Definition bind {St A B} (m : M St A) (k : A -> M St B) : M St B :=
  fun s =>
    match m s with
    | (Ok a, s') => k a s'
    | (Raise e, s') => (Raise e, s')
    end.

Notation "'let*' x ':=' m 'in' k" := (bind m (fun x => k))
  (at level 10, x name, m at level 100, k at level 200).

(** A value that may have raised, inside a computation. *)
Definition lift {St A} (r : result A) : M St A := fun s => (r, s).

(** [for x in l: body(x)] *)
Fixpoint for_ {St A} (l : list A) (body : A -> M St unit) : M St unit :=
  match l with
  | [] => ret tt
  | x :: l' => let* _ := body x in for_ l' body
  end.

(** [[f(x) for x in l]] *)
Fixpoint comprehension {St A B} (f : A -> M St B) (l : list A) : M St (list B) :=
  match l with
  | [] => ret []
  | x :: l' => let* y := f x in let* ys := comprehension f l' in ret (y :: ys)
  end.

(** The values of a list of results, or the first exception among them. *)
Fixpoint all_ok {A} (l : list (result A)) : result (list A) :=
  match l with
  | [] => Ok []
  | Raise e :: _ => Raise e
  | Ok a :: l' =>
      match all_ok l' with
      | Ok r => Ok (a :: r)
      | Raise e => Raise e
      end
  end.

(** Python dictionaries that are iterated: entries in insertion order. *)
Definition dict (K V : Type) : Type := list (K * V).

Definition keys {K V} (d : dict K V) : list K := map fst d.
Definition values {K V} (d : dict K V) : list V := map snd d.
Definition items {K V} (d : dict K V) : list (K * V) := d.

(** [d[k]] on a dictionary with string keys: [KeyError] when the key is
    missing. *)
Fixpoint getitem {V} (d : dict string V) (k : string) : result V :=
  match d with
  | [] => Raise KeyError
  | (k', v) :: d' => if String.eqb k' k then Ok v else getitem d' k
  end.

(** ** Request status helpers *)

Module Requests.

(** The status of a submitted code request, as the framework's enumeration
    has it. *)
Inductive UserCodeStatus : Type := PENDING | DENIED | APPROVED.

Definition status_eqb (a b : UserCodeStatus) : bool :=
  match a, b with
  | PENDING, PENDING | DENIED, DENIED | APPROVED, APPROVED => true
  | _, _ => false
  end.

Record Request : Type := { status : UserCodeStatus }.

(** What [print] and [display] have put on the notebook's output. *)
Inductive output : Type :=
| Printed (line : string)
| Displayed (message : string).

(** A [DatasiteClient] is a handle on a remote datasite: two names of the
    registry may hold the same client. *)
Definition DatasiteClient : Type := nat.

(** The datasites behind the clients, each with the list [code] of the
    requests submitted to it, oldest first, and the notebook's output. *)
Record world : Type := {
  code : DatasiteClient -> list Request;
  console : list output
}.

(** A request object: the datasite that holds it and its index in [code]. *)
Definition request_ref : Type := DatasiteClient * nat.

(** [datasite.code[-1]]: the last element, [IndexError] on an empty list. *)
Definition code_last (datasite : DatasiteClient) : M world request_ref :=
  fun w =>
    match code w datasite with
    | [] => (Raise IndexError, w)
    | _ :: _ => (Ok (datasite, length (code w datasite) - 1), w)
    end.

(** Reading the status of a request; a reference obtained from
    [code_last] is always within range. *)
Definition get_status (r : request_ref) : M world UserCodeStatus :=
  fun w =>
    match code w (fst r) !! snd r with
    | Some q => (Ok (status q), w)
    | None => (Raise IndexError, w)
    end.

(** [request.status.approved] *)
Definition status_approved (r : request_ref) : M world bool :=
  let* s := get_status r in ret (status_eqb s APPROVED).

(** [request.status.approve()]: the status object of a request has no
    method [approve] (the framework approves through the request, not
    through its status), so the attribute lookup raises [AttributeError]
    and no status changes. *)
Definition status_approve (r : request_ref) : M world unit :=
  raise AttributeError.

Definition print (line : string) : M world unit :=
  fun w => (Ok tt, {| code := code w; console := console w ++ [Printed line] |}).

Definition display (message : string) : M world unit :=
  fun w => (Ok tt, {| code := code w; console := console w ++ [Displayed message] |}).

Section Helpers.

(** The text the framework shows for a status. *)
Variable status_message : UserCodeStatus -> string.

(** [request.status.get_status_message()] *)
Definition get_status_message (r : request_ref) : M world string :=
  let* s := get_status r in ret (status_message s).

(** [check_status_last_code_requests(datasites)] *)
Definition check_status_last_code_requests
    (datasites : dict string DatasiteClient) : M world unit :=
  for_ (items datasites) (fun '(name, datasite) =>
    let* _ := print ("Datasite: " +:+ name) in
    let* last := code_last datasite in
    let* message := get_status_message last in
    display message).

End Helpers.

(** [approve_last_code_requests(datasites)] *)
Definition approve_last_code_requests
    (datasites : dict string DatasiteClient) : M world unit :=
  for_ (values datasites) (fun datasite =>
    let* last := code_last datasite in
    status_approve last).

(** [requests_accepted(datasites)] *)
Definition requests_accepted
    (datasites : dict string DatasiteClient) : M world (list bool) :=
  comprehension (fun dsite =>
    let* last := code_last dsite in
    status_approved last) (values datasites).

(** The most recent request of a datasite, if it has one. *)
Definition last_request (w : world) (d : DatasiteClient) : option Request :=
  last (code w d).

Definition last_approved (w : world) (d : DatasiteClient) : bool :=
  match last_request w d with
  | Some q => status_eqb (status q) APPROVED
  | None => false
  end.

Definition has_request (w : world) (d : DatasiteClient) : bool :=
  match code w d with [] => false | _ :: _ => true end.

End Requests.

(** ** Byte streams *)

(** An [io.BytesIO] object, and equally a binary file opened for reading: the
    bytes it holds, the current position, and whether it has been closed.
    Every operation on a closed stream raises [ValueError]. *)
Record BytesIO : Type := {
  getvalue : list byte;
  tell : nat;
  closed : bool
}.

(** [BytesIO()] *)
Definition BytesIO_new : BytesIO := {| getvalue := []; tell := 0; closed := false |}.

Module Stream.

(** [buffer.seek(pos)] *)
Definition seek (pos : nat) : M BytesIO nat :=
  fun b =>
    if closed b then (Raise ValueError, b)
    else (Ok pos, {| getvalue := getvalue b; tell := pos; closed := false |}).

(** [buffer.getbuffer()]: a view of all the bytes held; the position plays
    no part and does not move. *)
Definition getbuffer : M BytesIO (list byte) :=
  fun b =>
    if closed b then (Raise ValueError, b)
    else (Ok (getvalue b), b).

(** [buffer.write(data)]: overwrites from the position on and extends the
    buffer, padding with zero bytes when the position is past the end. *)
Definition write (data : list byte) : M BytesIO nat :=
  fun b =>
    let old := getvalue b in
    let pad := replicate (tell b - length old) x00 in
    if closed b then (Raise ValueError, b)
    else
      (Ok (length data),
       {| getvalue := take (tell b) old ++ pad ++ data
                      ++ drop (tell b + length data) old;
          tell := tell b + length data;
          closed := false |}).

End Stream.

(** ** The serialisation library *)

Section Joblib.

(** The estimators and the library's pickle format are the library's own:
    [pickle] gives the bytes [joblib.dump] emits for an estimator,
    [unpickle] what [joblib.load] makes of the bytes in front of it, and
    [consumed] how many of them it reads. *)
Variable estimator : Type.
Variable pickle : estimator -> list byte.
Variable unpickle : list byte -> result estimator.
Variable consumed : list byte -> nat.

(** [joblib.dump(model, file)]: writes the pickle at the position. *)
Definition joblib_dump (model : estimator) : M BytesIO unit :=
  let* _ := Stream.write (pickle model) in ret tt.

(** [joblib.load(file)]: reads from the position on. *)
Definition joblib_load : M BytesIO estimator :=
  fun f =>
    let ahead := drop (tell f) (getvalue f) in
    if closed f then (Raise ValueError, f)
    else
      (unpickle ahead,
       {| getvalue := getvalue f; tell := tell f + consumed ahead;
          closed := false |}).

(** [load_model_from_buffer(model_buffer)] *)
Definition load_model_from_buffer : M BytesIO estimator :=
  let* _ := Stream.seek 0 in
  joblib_load.

(** The buffer [serialize_and_upload(model, to)] builds before it hands it
    to the framework: [BytesIO()], [joblib.dump(model, model_buffer)],
    [model_buffer.seek(0)]. *)
Definition serialize (model : estimator) : BytesIO :=
  snd ((let* _ := joblib_dump model in Stream.seek 0) BytesIO_new).

End Joblib.

(** ** Paths *)

Module Pathlib.

(** The root of a POSIX path: none, [/], or the [//] that POSIX keeps
    apart. *)
Inductive anchor : Type := NoRoot | Slash | DoubleSlash.

(** A [pathlib.Path]: the root and the components. *)
Record Path : Type := {
  root : anchor;
  parts : list string
}.

(** [s.split("/")] *)
Fixpoint split_slash (s : string) : list string :=
  match s with
  | EmptyString => [EmptyString]
  | String c s' =>
      if Ascii.eqb c "/" then EmptyString :: split_slash s'
      else match split_slash s' with
           | x :: r => String c x :: r
           | [] => [String c EmptyString]
           end
  end.

(** [posixpath.splitroot]: one slash or three and more make the root [/],
    exactly two make [//]. *)
Definition splitroot (s : string) : anchor * string :=
  match s with
  | String "/" (String "/" (String "/" _ as rest)) => (Slash, rest)
  | String "/" (String "/" rest) => (DoubleSlash, rest)
  | String "/" rest => (Slash, rest)
  | _ => (NoRoot, s)
  end.

Definition kept (x : string) : bool :=
  negb (String.eqb x "") && negb (String.eqb x ".").

(** [Path(s)]: empty components and [.] components are dropped, [..] is
    kept. *)
Definition parse (s : string) : Path :=
  let '(r, rel) := splitroot s in
  {| root := r; parts := filter (fun x => kept x = true) (split_slash rel) |}.

(** [sep.join(l)] *)
Fixpoint join (l : list string) : string :=
  match l with
  | [] => ""
  | [x] => x
  | x :: l' => x +:+ "/" +:+ join l'
  end.

Definition anchor_str (a : anchor) : string :=
  match a with NoRoot => "" | Slash => "/" | DoubleSlash => "//" end.

(** [str(path)] *)
Definition str (p : Path) : string :=
  match root p, parts p with
  | NoRoot, [] => "."
  | a, l => anchor_str a +:+ join l
  end.

(** [path / key]: a rooted [key] replaces the path. *)
Definition truediv (p : Path) (key : string) : Path :=
  let q := parse key in
  match root q with
  | NoRoot => {| root := root p; parts := parts p ++ parts q |}
  | _ => q
  end.

End Pathlib.

Infix "</>" := Pathlib.truediv (at level 40, left associativity).

(** ** The file system *)

Module FS.

Inductive inode : Type :=
| File (data : list byte)
| Directory.

(** A location is the list of names from the root directory down; a file
    system maps the locations in use to their inodes and knows the working
    directory of the process. *)
Record filesystem : Type := {
  inodes : gmap (list string) inode;
  cwd : list string
}.

Definition parent (loc : list string) : list string := take (length loc - 1) loc.

(** Path resolution, one component at a time: the place a component is
    looked up in has to be a directory; [..] goes to the parent, and the
    root is its own parent. *)
Fixpoint walk (t : gmap (list string) inode) (cur : list string)
    (names : list string) : result (list string) :=
  match names with
  | [] => Ok cur
  | c :: rest =>
      match t !! cur with
      | None => Raise FileNotFoundError
      | Some (File _) => Raise NotADirectoryError
      | Some Directory =>
          walk t (if String.eqb c ".." then parent cur else cur ++ [c]) rest
      end
  end.

Definition start (fs : filesystem) (p : Pathlib.Path) : list string :=
  match Pathlib.root p with
  | Pathlib.NoRoot => cwd fs
  | _ => []
  end.

Definition resolve (fs : filesystem) (p : Pathlib.Path) : result (list string) :=
  walk (inodes fs) (start fs p) (Pathlib.parts p).

Definition set_inode (loc : list string) (i : inode) (fs : filesystem) : filesystem :=
  {| inodes := <[loc := i]> (inodes fs); cwd := cwd fs |}.

(** [os.mkdir(path)] *)
Definition os_mkdir (p : Pathlib.Path) : M filesystem unit :=
  fun fs =>
    match resolve fs p with
    | Raise e => (Raise e, fs)
    | Ok loc =>
        match inodes fs !! loc with
        | Some _ => (Raise FileExistsError, fs)
        | None => (Ok tt, set_inode loc Directory fs)
        end
    end.

(** [path.is_dir()]: false also when the path cannot be resolved. *)
Definition is_dir (p : Pathlib.Path) : M filesystem bool :=
  fun fs =>
    match resolve fs p with
    | Ok loc =>
        match inodes fs !! loc with
        | Some Directory => (Ok true, fs)
        | _ => (Ok false, fs)
        end
    | Raise _ => (Ok false, fs)
    end.

(** [path.mkdir(exist_ok=True)], which leaves [parents] at [False]:
    [FileNotFoundError] is raised again at once, any other error of
    [os.mkdir] only when the path is not a directory. *)
Definition mkdir_exist_ok (p : Pathlib.Path) : M filesystem unit :=
  fun fs =>
    match os_mkdir p fs with
    | (Ok tt, fs') => (Ok tt, fs')
    | (Raise FileNotFoundError, fs') => (Raise FileNotFoundError, fs')
    | (Raise e, fs') =>
        match is_dir p fs' with
        | (Ok true, fs'') => (Ok tt, fs'')
        | (_, fs'') => (Raise e, fs'')
        end
    end.

(** [open(path, "wb")]: creates the file or truncates it. A file opened
    for writing is the location of its inode; only sequential writes
    happen, so a write appends. *)
Definition open_wb (p : Pathlib.Path) : M filesystem (list string) :=
  fun fs =>
    match resolve fs p with
    | Raise e => (Raise e, fs)
    | Ok loc =>
        match inodes fs !! loc with
        | Some Directory => (Raise IsADirectoryError, fs)
        | _ => (Ok loc, set_inode loc (File []) fs)
        end
    end.

(** [file.write(data)] *)
Definition write (f : list string) (data : list byte) : M filesystem nat :=
  fun fs =>
    match inodes fs !! f with
    | Some (File old) => (Ok (length data), set_inode f (File (old ++ data)) fs)
    | _ => (Ok (length data), set_inode f (File data) fs)
    end.

(** [open(path, "rb")]: a stream over the bytes of the file, at position
    0. *)
Definition open_rb (p : Pathlib.Path) : M filesystem BytesIO :=
  fun fs =>
    match resolve fs p with
    | Raise e => (Raise e, fs)
    | Ok loc =>
        match inodes fs !! loc with
        | None => (Raise FileNotFoundError, fs)
        | Some Directory => (Raise IsADirectoryError, fs)
        | Some (File data) =>
            (Ok {| getvalue := data; tell := 0; closed := false |}, fs)
        end
    end.

(** The bytes stored under a path, if it names a file. *)
Definition file_at (fs : filesystem) (p : Pathlib.Path) : option (list byte) :=
  match resolve fs p with
  | Ok loc =>
      match inodes fs !! loc with
      | Some (File data) => Some data
      | _ => None
      end
  | Raise _ => None
  end.

Definition dir_at (fs : filesystem) (p : Pathlib.Path) : bool :=
  match resolve fs p with
  | Ok loc =>
      match inodes fs !! loc with
      | Some Directory => true
      | _ => false
      end
  | Raise _ => false
  end.

End FS.

(** ** Model persistence helpers *)

(** The state of the persistence helpers: the disk and the [BytesIO] object
    the caller passed as [model_buffer]. *)
Record store : Type := {
  disk : FS.filesystem;
  model_buffer : BytesIO
}.

Definition on_disk {A} (m : M FS.filesystem A) : M store A :=
  fun s =>
    let '(r, fs') := m (disk s) in
    (r, {| disk := fs'; model_buffer := model_buffer s |}).

Definition on_buffer {A} (m : M BytesIO A) : M store A :=
  fun s =>
    let '(r, b') := m (model_buffer s) in
    (r, {| disk := disk s; model_buffer := b' |}).

(** [dump_model(datasite_name, model_buffer, root)]; the [with] block closes
    the file after the write. *)
Definition dump_model (datasite_name : string) (root : string) : M store string :=
  let model_folder := Pathlib.parse root in
  let* _ := on_disk (FS.mkdir_exist_ok model_folder) in
  let filename := get_model_file datasite_name in
  let filepath := model_folder </> filename in
  let* model_file := on_disk (FS.open_wb filepath) in
  let* view := on_buffer Stream.getbuffer in
  let* _ := on_disk (FS.write model_file view) in
  ret ("Model saved in " +:+ Pathlib.str filepath).

(** The default [root="./models"]. *)
Definition default_root : string := "./models".

Section Loading.

Variable estimator : Type.
Variable unpickle : list byte -> result estimator.
Variable consumed : list byte -> nat.

(** [load_model(model_filepath)], for a [Path] as [load_models] passes
    it. *)
Definition load_model (model_filepath : Pathlib.Path) : M FS.filesystem estimator :=
  let* model_file := FS.open_rb model_filepath in
  lift (fst (joblib_load estimator unpickle consumed model_file)).

(** [load_models(datasites, root)]: the dictionary of the models loaded,
    in the order of the registry; a later entry of the same name replaces
    the earlier one in place. *)
Fixpoint setitem {V} (d : dict string V) (k : string) (v : V) : dict string V :=
  match d with
  | [] => [(k, v)]
  | (k', v') :: d' =>
      if String.eqb k' k then (k', v) :: d' else (k', v') :: setitem d' k v
  end.

Fixpoint load_models_loop (model_folder : Pathlib.Path)
    (names : list string) (models : dict string estimator)
    : M FS.filesystem (dict string estimator) :=
  match names with
  | [] => ret models
  | name :: rest =>
      let filename := get_model_file name in
      let filepath := model_folder </> filename in
      let* model := load_model filepath in
      load_models_loop model_folder rest (setitem models name model)
  end.

Definition load_models {C : Type} (datasites : dict string C) (root : string)
    : M FS.filesystem (dict string estimator) :=
  load_models_loop (Pathlib.parse root) (keys datasites) [].

End Loading.

(** ** Plotting helpers *)

Module Plots.

(** [range(n)] *)
Definition range (n : nat) : list nat := seq 0 n.

(** [itertools.product(l, repeat=2)]: pairs, the second index running
    fastest. *)
Definition product2 {A} (l : list A) : list (A * A) :=
  flat_map (fun a => map (fun b => (a, b)) l) l.

(** [zip(l1, l2)]: stops with the shorter of the two. *)
Fixpoint zip {A B} (l1 : list A) (l2 : list B) : list (A * B) :=
  match l1, l2 with
  | a :: l1', b :: l2' => (a, b) :: zip l1' l2'
  | _, _ => []
  end.

(** [if title:] for an optional string: [None] and [""] are false. *)
Definition truthy (title : option string) : bool :=
  match title with
  | None => false
  | Some s => negb (String.eqb s "")
  end.

Section ConfusionMatrices.

(** A confusion matrix is handed to the plotting library as it is: a
    square array with one row and one column per class, of which the
    library looks at the number [n_classes] of classes ([cm.shape[0]]). *)
Variable matrix : Type.
Variable n_classes : matrix -> nat.

(** What one subplot shows. *)
Record Axes : Type := {
  ax_image : option matrix;
  ax_display_labels : list string;
  ax_xticks_rotation : nat;
  ax_title : string;
  ax_xlabel : string;
  ax_ylabel : string;
  ax_colorbar : bool
}.

Definition blank_axes : Axes :=
  {| ax_image := None; ax_display_labels := []; ax_xticks_rotation := 0;
     ax_title := ""; ax_xlabel := ""; ax_ylabel := ""; ax_colorbar := false |}.

(** A figure: its grid of subplots by (row, column), the free texts, the
    title above and the figure-wide colour bar with the image it is
    drawn for. *)
Record Figure : Type := {
  fig_axes : gmap (nat * nat) Axes;
  fig_texts : list string;
  fig_tight : bool;
  fig_suptitle : option string;
  fig_colorbar : option matrix
}.

(** [plt.subplots(nrows, ncols)] *)
Definition subplots (nrows ncols : nat) : Figure :=
  {| fig_axes :=
       list_to_map
         (flat_map (fun r => map (fun c => ((r, c), blank_axes)) (range ncols))
                   (range nrows));
     fig_texts := []; fig_tight := false; fig_suptitle := None;
     fig_colorbar := None |}.

Definition set_axes (coords : nat * nat) (a : Axes) (fig : Figure) : Figure :=
  {| fig_axes := <[coords := a]> (fig_axes fig);
     fig_texts := fig_texts fig; fig_tight := fig_tight fig;
     fig_suptitle := fig_suptitle fig; fig_colorbar := fig_colorbar fig |}.

(** [ConfusionMatrixDisplay(cf_matrix, display_labels=labels).plot(ax=ax,
    xticks_rotation=rot)]: the image, its own colour bar and the two
    axis labels. There is one tick per class, and the labels given are
    set on the ticks: when they are not as many as the classes, setting
    them raises [ValueError]. *)
Definition display_plot (cf_matrix : matrix) (labels : list string)
    (rot : nat) (a : Axes) : result Axes :=
  if Nat.eqb (n_classes cf_matrix) (length labels)
  then Ok {| ax_image := Some cf_matrix; ax_display_labels := labels;
             ax_xticks_rotation := rot; ax_title := ax_title a;
             ax_xlabel := "Predicted label"; ax_ylabel := "True label";
             ax_colorbar := true |}
  else Raise ValueError.

Definition set_title (t : string) (a : Axes) : Axes :=
  {| ax_image := ax_image a; ax_display_labels := ax_display_labels a;
     ax_xticks_rotation := ax_xticks_rotation a; ax_title := t;
     ax_xlabel := ax_xlabel a; ax_ylabel := ax_ylabel a;
     ax_colorbar := ax_colorbar a |}.

Definition colorbar_remove (a : Axes) : Axes :=
  {| ax_image := ax_image a; ax_display_labels := ax_display_labels a;
     ax_xticks_rotation := ax_xticks_rotation a; ax_title := ax_title a;
     ax_xlabel := ax_xlabel a; ax_ylabel := ax_ylabel a;
     ax_colorbar := false |}.

Definition set_xlabel (l : string) (a : Axes) : Axes :=
  {| ax_image := ax_image a; ax_display_labels := ax_display_labels a;
     ax_xticks_rotation := ax_xticks_rotation a; ax_title := ax_title a;
     ax_xlabel := l; ax_ylabel := ax_ylabel a;
     ax_colorbar := ax_colorbar a |}.

Definition set_ylabel (l : string) (a : Axes) : Axes :=
  {| ax_image := ax_image a; ax_display_labels := ax_display_labels a;
     ax_xticks_rotation := ax_xticks_rotation a; ax_title := ax_title a;
     ax_xlabel := ax_xlabel a; ax_ylabel := l;
     ax_colorbar := ax_colorbar a |}.

(** The body of the loop for one pair of [zip]: returns the figure and
    the [disp] it leaves assigned, here the image [disp.im_] shows. *)
Definition draw_one (coords : nat * nat) (name : string) (cf_matrix : matrix)
    (fig : Figure) : result (Figure * matrix) :=
  let ax := default blank_axes (fig_axes fig !! coords) in
  match display_plot cf_matrix ["Absence"; "Presence"] 45 ax with
  | Raise e => Raise e
  | Ok ax =>
      let ax := set_title name ax in
      let ax := colorbar_remove ax in
      let ax := set_xlabel "" ax in
      let ax := if negb (Nat.eqb (snd coords) 0) then set_ylabel "" ax else ax in
      Ok (set_axes coords ax fig, cf_matrix)
  end.

(** The [for] loop: [disp] is unassigned until the first round; an
    exception of a round ends the loop and the call. *)
Fixpoint draw_all (pairs : list ((nat * nat) * (string * matrix)))
    (fig : Figure) (disp : option matrix) : result (Figure * option matrix) :=
  match pairs with
  | [] => Ok (fig, disp)
  | (coords, (name, cf_matrix)) :: rest =>
      match draw_one coords name cf_matrix fig with
      | Raise e => Raise e
      | Ok (fig', d) => draw_all rest fig' (Some d)
      end
  end.

(** [plot_all_confusion_matrices(cms, title)] *)
Definition plot_all_confusion_matrices (cms : dict string matrix)
    (title : option string) : result Figure :=
  let fig := subplots 2 2 in
  match draw_all (zip (product2 (range 2)) (items cms)) fig None with
  | Raise e => Raise e
  | Ok (fig, disp) =>
      let fig :=
        {| fig_axes := fig_axes fig;
           fig_texts := fig_texts fig ++ ["Predicted label"];
           fig_tight := true;
           fig_suptitle := if truthy title then title else fig_suptitle fig;
           fig_colorbar := fig_colorbar fig |} in
      match disp with
      | None => Raise UnboundLocalError
      | Some im =>
          Ok {| fig_axes := fig_axes fig; fig_texts := fig_texts fig;
                fig_tight := fig_tight fig; fig_suptitle := fig_suptitle fig;
                fig_colorbar := Some im |}
      end
  end.

(** The subplots of a figure that show a matrix. *)
Definition drawn (fig : Figure) : list (nat * nat) :=
  map fst (filter (fun ca => is_Some (ax_image (snd ca)))
                  (map_to_list (fig_axes fig))).

Definition shows (fig : Figure) (coords : nat * nat) : option matrix :=
  match fig_axes fig !! coords with
  | Some a => ax_image a
  | None => None
  end.

End ConfusionMatrices.

Section Metrics.

(** Accuracies are floating-point numbers that are only passed on. *)
Variable float : Type.

(** One plotted line: x values, y values and the legend label. *)
Record Line : Type := {
  line_x : list nat;
  line_y : list float;
  line_label : string
}.

(** The current figure of [pyplot] and the figures shown so far. *)
Record Chart : Type := {
  lines : list Line;
  title : option string;
  xlabel : option string;
  ylabel : option string;
  xticks : option (list nat);
  ylim : option (nat * nat);
  grid : bool;
  legend : bool;
  tight : bool
}.

Record pyplot : Type := {
  current : Chart;
  shown : list Chart
}.

Definition blank_chart : Chart :=
  {| lines := []; title := None; xlabel := None; ylabel := None;
     xticks := None; ylim := None; grid := false; legend := false;
     tight := false |}.

Definition on_current (f : Chart -> Chart) : M pyplot unit :=
  fun p => (Ok tt, {| current := f (current p); shown := shown p |}).

(** [plt.figure()] *)
Definition plt_figure : M pyplot unit := on_current (fun _ => blank_chart).

(** [plt.plot(x, y, label=l)] *)
Definition plt_plot (x : list nat) (y : list float) (l : string) : M pyplot unit :=
  on_current (fun c =>
    {| lines := lines c ++ [{| line_x := x; line_y := y; line_label := l |}];
       title := title c; xlabel := xlabel c; ylabel := ylabel c;
       xticks := xticks c; ylim := ylim c; grid := grid c;
       legend := legend c; tight := tight c |}).

Definition plt_title (t : string) : M pyplot unit :=
  on_current (fun c =>
    {| lines := lines c; title := Some t; xlabel := xlabel c;
       ylabel := ylabel c; xticks := xticks c; ylim := ylim c;
       grid := grid c; legend := legend c; tight := tight c |}).

Definition plt_xlabel (t : string) : M pyplot unit :=
  on_current (fun c =>
    {| lines := lines c; title := title c; xlabel := Some t;
       ylabel := ylabel c; xticks := xticks c; ylim := ylim c;
       grid := grid c; legend := legend c; tight := tight c |}).

Definition plt_ylabel (t : string) : M pyplot unit :=
  on_current (fun c =>
    {| lines := lines c; title := title c; xlabel := xlabel c;
       ylabel := Some t; xticks := xticks c; ylim := ylim c;
       grid := grid c; legend := legend c; tight := tight c |}).

Definition plt_xticks (ticks : list nat) : M pyplot unit :=
  on_current (fun c =>
    {| lines := lines c; title := title c; xlabel := xlabel c;
       ylabel := ylabel c; xticks := Some ticks; ylim := ylim c;
       grid := grid c; legend := legend c; tight := tight c |}).

Definition plt_ylim (lo hi : nat) : M pyplot unit :=
  on_current (fun c =>
    {| lines := lines c; title := title c; xlabel := xlabel c;
       ylabel := ylabel c; xticks := xticks c; ylim := Some (lo, hi);
       grid := grid c; legend := legend c; tight := tight c |}).

Definition plt_grid : M pyplot unit :=
  on_current (fun c =>
    {| lines := lines c; title := title c; xlabel := xlabel c;
       ylabel := ylabel c; xticks := xticks c; ylim := ylim c;
       grid := true; legend := legend c; tight := tight c |}).

Definition plt_legend : M pyplot unit :=
  on_current (fun c =>
    {| lines := lines c; title := title c; xlabel := xlabel c;
       ylabel := ylabel c; xticks := xticks c; ylim := ylim c;
       grid := grid c; legend := true; tight := tight c |}).

Definition plt_tight_layout : M pyplot unit :=
  on_current (fun c =>
    {| lines := lines c; title := title c; xlabel := xlabel c;
       ylabel := ylabel c; xticks := xticks c; ylim := ylim c;
       grid := grid c; legend := legend c; tight := true |}).

(** [plt.show()] *)
Definition plt_show : M pyplot unit :=
  fun p => (Ok tt, {| current := current p; shown := shown p ++ [current p] |}).

(** Reading a local variable that the loop may never have assigned. *)
Definition local {A} (v : option A) : M pyplot A :=
  match v with
  | Some a => ret a
  | None => raise UnboundLocalError
  end.

(** The [for] loop of [plot_fl_metrics]; [epochs] is the local variable
    of that name as the loop leaves it. *)
Fixpoint plot_series (series : list (string * list (dict string float)))
    (epochs : option (list nat)) : M pyplot (option (list nat)) :=
  match series with
  | [] => ret epochs
  | (question, metrics) :: rest =>
      let epochs := seq 1 (length metrics) in
      let* accuracy :=
        comprehension (fun m => lift (getitem m "accuracy")) metrics in
      let* _ := plt_plot epochs accuracy question in
      plot_series rest (Some epochs)
  end.

(** [plot_fl_metrics(fl_metrics, title)] *)
Definition plot_fl_metrics
    (fl_metrics : dict string (list (dict string float)))
    (title : string) : M pyplot unit :=
  let* _ := plt_figure in
  let* epochs := plot_series (items fl_metrics) None in
  let* _ := plt_title title in
  let* _ := plt_xlabel "Epoch" in
  let* _ := plt_ylabel "Accuracy" in
  let* ticks := local epochs in
  let* _ := plt_xticks ticks in
  let* _ := plt_ylim 0 1 in
  let* _ := plt_grid in
  let* _ := plt_legend in
  let* _ := plt_tight_layout in
  plt_show.

Definition default_title : string := "Federated Learning Experiment Metrics".

(** The accuracies of a series, as the comprehension collects them:
    [KeyError] at the first record without one. *)
Definition accuracies (metrics : list (dict string float)) : result (list float) :=
  all_ok (map (fun m => getitem m "accuracy") metrics).

(** Every epoch record of every question has its accuracy. *)
Definition well_formed (fl_metrics : dict string (list (dict string float))) : bool :=
  forallb (fun qm => is_ok (accuracies (snd qm))) fl_metrics.

Definition accuracy_values (metrics : list (dict string float)) : list float :=
  match accuracies metrics with
  | Ok l => l
  | Raise _ => []
  end.

(** The line of one question: accuracy against the epochs 1, 2, ... of
    that question. *)
Definition series_line (qm : string * list (dict string float)) : Line :=
  {| line_x := seq 1 (length (snd qm));
     line_y := accuracy_values (snd qm);
     line_label := fst qm |}.

Definition add_lines (new : list Line) (c : Chart) : Chart :=
  {| lines := lines c ++ new; title := title c; xlabel := xlabel c;
     ylabel := ylabel c; xticks := xticks c; ylim := ylim c;
     grid := grid c; legend := legend c; tight := tight c |}.

End Metrics.

End Plots.

(** ** What the request helpers leave behind *)

(** What [check_status_last_code_requests] puts out for one site: the header
    line, then the message of the last request if there is one. *)
Definition site_report (status_message : Requests.UserCodeStatus -> string)
    (w : Requests.world) (site : string * Requests.DatasiteClient)
    : list Requests.output :=
  Requests.Printed ("Datasite: " +:+ fst site)
  :: match Requests.last_request w (snd site) with
     | Some q => [Requests.Displayed (status_message (Requests.status q))]
     | None => []
     end.

(** ** Counting characters *)

(** [s.count(c)] for one character. *)
Fixpoint count_char (c : ascii) (s : string) : nat :=
  match s with
  | EmptyString => 0
  | String a s' => (if Ascii.eqb a c then 1 else 0) + count_char c s'
  end.

(** ** What the plotting helpers draw *)

(** The subplot [plot_all_confusion_matrices] makes of the matrix it draws
    in round [i] of its loop: the y label stays in the first column only. *)
Definition drawn_axes {matrix : Type} (i : nat) (name : string) (m : matrix)
    : Plots.Axes matrix :=
  {| Plots.ax_image := Some m;
     Plots.ax_display_labels := ["Absence"; "Presence"];
     Plots.ax_xticks_rotation := 45;
     Plots.ax_title := name;
     Plots.ax_xlabel := "";
     Plots.ax_ylabel := if Nat.eqb (i mod 2) 0 then "True label" else "";
     Plots.ax_colorbar := false |}.

(** The chart [plot_fl_metrics] shows for well-formed metrics, given the
    ticks of its x axis. *)
Definition finished_chart {float : Type}
    (fl_metrics : dict string (list (dict string float)))
    (title : string) (ticks : list nat) : Plots.Chart float :=
  {| Plots.lines := map (Plots.series_line float) fl_metrics;
     Plots.title := Some title;
     Plots.xlabel := Some "Epoch";
     Plots.ylabel := Some "Accuracy";
     Plots.xticks := Some ticks;
     Plots.ylim := Some (0, 1);
     Plots.grid := true;
     Plots.legend := true;
     Plots.tight := true |}.

(** * Properties *)

(** ** File names *)

Section FileNames.

Import PyStr.

Lemma str_app_cons (c : ascii) (a b : string) :
  String c a +:+ b = String c (a +:+ b).
Proof. reflexivity. Qed.

Lemma str_app_nil_l (b : string) : "" +:+ b = b.
Proof. reflexivity. Qed.

Lemma str_app_assoc (a b c : string) : (a +:+ b) +:+ c = a +:+ (b +:+ c).
Proof.
  induction a as [|x a IH]; [reflexivity|].
  now rewrite !str_app_cons, IH.
Qed.

Lemma lower_append (a b : string) : lower (a +:+ b) = lower a +:+ lower b.
Proof.
  induction a as [|x a IH]; [reflexivity|].
  rewrite str_app_cons. simpl. now rewrite IH, str_app_cons.
Qed.

Lemma has_char_append (c : ascii) (a b : string) :
  has_char c (a +:+ b) = has_char c a || has_char c b.
Proof.
  induction a as [|x a IH]; [reflexivity|].
  rewrite str_app_cons. simpl. now rewrite IH, orb_assoc.
Qed.

Lemma replace_one_char (a : ascii) (new s : string) :
  replace (String a EmptyString) new s = subst_char a new s.
Proof.
  unfold replace.
  induction s as [|c s IH]; [reflexivity|].
  simpl. destruct (Ascii.eqb a c); now rewrite IH.
Qed.

Lemma subst_char_append (a : ascii) (new s t : string) :
  subst_char a new (s +:+ t) = subst_char a new s +:+ subst_char a new t.
Proof.
  induction s as [|c s IH]; [reflexivity|].
  rewrite str_app_cons. simpl. now rewrite IH, str_app_assoc.
Qed.

Lemma normalise_char_steps (c : ascii) :
  lower (subst_char " " "_" (subst_char "." "" (String c EmptyString)))
  = normalise_char c.
Proof. destruct c as [[] [] [] [] [] [] [] []]; reflexivity. Qed.

Lemma normalise_steps (s : string) :
  lower (replace " " "_" (replace "." "" s)) = normalise s.
Proof.
  rewrite !replace_one_char.
  induction s as [|c s IH]; [reflexivity|].
  change (String c s) with (String c EmptyString +:+ s).
  rewrite !subst_char_append, lower_append, IH, normalise_char_steps.
  reflexivity.
Qed.

Lemma normalise_char_clean (c : ascii) :
  has_char "." (normalise_char c) = false
  /\ has_char " " (normalise_char c) = false
  /\ lower (normalise_char c) = normalise_char c
  /\ has_char "/" (normalise_char c) = Ascii.eqb c "/".
Proof. destruct c as [[] [] [] [] [] [] [] []]; repeat split; reflexivity. Qed.

Lemma normalise_clean (s : string) :
  has_char "." (normalise s) = false
  /\ has_char " " (normalise s) = false
  /\ lower (normalise s) = normalise s.
Proof.
  induction s as [|c s (Hd & Hs & Hl)]; [repeat split; reflexivity|].
  destruct (normalise_char_clean c) as (Hd' & Hs' & Hl' & _).
  simpl. rewrite !has_char_append, lower_append, Hd, Hs, Hl, Hd', Hs', Hl'.
  repeat split; reflexivity.
Qed.

Lemma normalise_slash (s : string) :
  has_char "/" (normalise s) = has_char "/" s.
Proof.
  induction s as [|c s IH]; [reflexivity|].
  destruct (normalise_char_clean c) as (_ & _ & _ & H).
  simpl. now rewrite has_char_append, IH, H.
Qed.

Lemma get_model_file_eq (name : string) :
  get_model_file name = normalise name +:+ "_model.jbl".
Proof. unfold get_model_file. now rewrite normalise_steps. Qed.

End FileNames.

(** C1, as the code has it. The file name of a site is the name with every
    dot removed, every space replaced by an underscore and every letter
    lowercased, followed by the suffix ["_model.jbl"]: the stem holds no dot
    and no space and is in lower case, and the file name of the site
    ["My Site.One"] is ["my_siteone_model.jbl"]. *)
Theorem get_model_file_normalises :
  (forall name : string,
      get_model_file name = normalise name +:+ "_model.jbl"
      /\ PyStr.has_char "." (normalise name) = false
      /\ PyStr.has_char " " (normalise name) = false
      /\ PyStr.lower (normalise name) = normalise name)
  /\ get_model_file "My Site.One" = "my_siteone_model.jbl".
Proof.
  split; [|reflexivity].
  intros name. split; [apply get_model_file_eq | apply normalise_clean].
Qed.

(** C1, as the specification words it, fails: a space is not removed but
    turned into an underscore, so the file of ["My Site.One"] is not
    ["mysiteone_model.jbl"], the name the specification's wording gives. *)
Lemma get_model_file_keeps_spaces :
  get_model_file "My Site.One" <> "mysiteone_model.jbl"
  /\ get_model_file "My Site.One" <> SpecWording.modelFilename "My Site.One".
Proof. split; discriminate. Qed.

(** ** Request status helpers *)

Section RequestHelpers.

Import Requests.

Lemma code_last_some (w : world) (d : DatasiteClient) :
  has_request w d = true ->
  code_last d w = (Ok (d, length (code w d) - 1), w).
Proof.
  unfold has_request, code_last.
  destruct (code w d); [discriminate | reflexivity].
Qed.

Lemma code_last_none (w : world) (d : DatasiteClient) :
  has_request w d = false -> code_last d w = (Raise IndexError, w).
Proof.
  unfold has_request, code_last.
  destruct (code w d); [reflexivity | discriminate].
Qed.

Lemma last_is_lookup {A} (l : list A) : l !! (length l - 1) = last l.
Proof. rewrite last_lookup. f_equal. lia. Qed.

(** Reading whether the last request is approved, in one step. *)
Lemma accepted_one (w : world) (d : DatasiteClient) :
  has_request w d = true ->
  (let* last := code_last d in status_approved last) w
  = (Ok (last_approved w d), w).
Proof.
  intros H. unfold bind at 1. rewrite (code_last_some _ _ H).
  unfold status_approved, get_status, bind, ret, last_approved, last_request.
  simpl fst; simpl snd. rewrite last_is_lookup.
  unfold has_request in H.
  destruct (last (code w d)) eqn:E; [reflexivity|].
  apply last_None in E. rewrite E in H. discriminate.
Qed.

(** When some site has no request, [check_status_last_code_requests]
    reaches it: printing and displaying change no request. *)
Lemma check_status_empty_site (status_message : UserCodeStatus -> string)
    (datasites : dict string DatasiteClient) (w : world) :
  Exists (fun d => has_request w d = false) (values datasites) ->
  fst (check_status_last_code_requests status_message datasites w)
  = Raise IndexError.
Proof.
  unfold check_status_last_code_requests, items, values.
  revert w. induction datasites as [|[name d] l IH]; intros w Hex.
  - inversion Hex.
  - cbn [for_]. unfold bind at 1. unfold bind at 1.
    cbn [print]. unfold bind at 1.
    set (w1 := {| code := code w;
                  console := console w ++ [Printed ("Datasite: " +:+ name)] |}).
    destruct (has_request w d) eqn:Hd.
    + rewrite (code_last_some w1 d Hd).
      unfold bind at 1.
      unfold get_status_message, get_status, bind, ret.
      simpl fst; simpl snd. change (code w1 d) with (code w d).
      rewrite last_is_lookup.
      destruct (last (code w d)) eqn:E.
      * cbn [display].
        apply IH.
        inversion Hex as [? ? H0|? ? H0]; subst; [simpl in H0; congruence|].
        eapply Exists_impl; [exact H0|]. intros d' Hd'. exact Hd'.
      * apply last_None in E. unfold has_request in Hd.
        rewrite E in Hd. discriminate.
    + now rewrite (code_last_none w1 d Hd).
Qed.

End RequestHelpers.

(** C3. When every site of the registry has a request, [requests_accepted]
    returns one boolean per site, in the order of the registry, true exactly
    for the sites whose last request is approved, and leaves every datasite
    and the output as they were; with a first site whose last request is
    approved and a second whose last request is pending it returns
    [[True, False]]. *)
Theorem requests_accepted_reads_last
    (datasites : dict string Requests.DatasiteClient) (w : Requests.world) :
  Forall (fun d => Requests.has_request w d = true) (values datasites) ->
  Requests.requests_accepted datasites w
  = (Ok (map (Requests.last_approved w) (values datasites)), w)
  /\ (forall a b : Requests.DatasiteClient,
        datasites = [("A", a); ("B", b)] ->
        Requests.last_request w a = Some {| Requests.status := Requests.APPROVED |} ->
        Requests.last_request w b = Some {| Requests.status := Requests.PENDING |} ->
        Requests.requests_accepted datasites w = (Ok [true; false], w)).
Proof.
  intros Hall.
  assert (Hgen : Requests.requests_accepted datasites w
                 = (Ok (map (Requests.last_approved w) (values datasites)), w)).
  { unfold Requests.requests_accepted.
    induction (values datasites) as [|d l IH]; [reflexivity|].
    inversion Hall as [|? ? Hd Hl]; subst.
    cbn [comprehension map]. unfold bind at 1.
    rewrite (accepted_one _ _ Hd).
    unfold bind at 1. rewrite (IH Hl). reflexivity. }
  split; [exact Hgen|].
  intros a b -> Ha Hb. rewrite Hgen. cbn [values map snd].
  unfold Requests.last_approved. now rewrite Ha, Hb.
Qed.

(** A registry of two sites, the first with an approved last request, the
    second with a pending one. *)
Lemma requests_accepted_reads_last_witness :
  let w := {| Requests.code := fun d =>
                match d with
                | 0 => [{| Requests.status := Requests.PENDING |};
                        {| Requests.status := Requests.APPROVED |}]
                | _ => [{| Requests.status := Requests.APPROVED |};
                        {| Requests.status := Requests.PENDING |}]
                end;
              Requests.console := [] |} in
  Requests.requests_accepted [("A", 0); ("B", 1)] w = (Ok [true; false], w).
Proof.
  intros w.
  refine (proj2 (requests_accepted_reads_last [("A", 0); ("B", 1)] w _) 0 1 _ _ _);
    try reflexivity.
  repeat constructor.
Defined.

(** C4. The claim fails on [approve_last_code_requests]. When the first
    site of the registry has a request and a later site has none, the call
    never reaches the empty site: it raises [AttributeError] at the first
    site, where [status.approve()] does not exist, and changes nothing, so no
    [IndexError] is raised. [check_status_last_code_requests] on the same
    registry does reach the empty site and raises [IndexError]. *)
Theorem empty_site_behind_raises_AttributeError
    (name : string) (d : Requests.DatasiteClient)
    (rest : dict string Requests.DatasiteClient) (w : Requests.world) :
  Requests.has_request w d = true ->
  Exists (fun d' => Requests.has_request w d' = false) (values rest) ->
  Requests.approve_last_code_requests ((name, d) :: rest) w
  = (Raise AttributeError, w)
  /\ (forall status_message,
        fst (Requests.check_status_last_code_requests status_message
               ((name, d) :: rest) w)
        = Raise IndexError).
Proof.
  intros Hd Hex. split.
  - unfold Requests.approve_last_code_requests. cbn [values map snd for_].
    unfold bind. now rewrite (code_last_some _ _ Hd).
  - intros status_message. apply check_status_empty_site.
    cbn [values map snd]. now apply Exists_cons_tl.
Qed.

(** Site A has one pending request, site B never received one. *)
Lemma empty_site_behind_raises_AttributeError_witness :
  let w := {| Requests.code := fun d =>
                match d with
                | 0 => [{| Requests.status := Requests.PENDING |}]
                | _ => []
                end;
              Requests.console := [] |} in
  Requests.approve_last_code_requests [("A", 0); ("B", 1)] w
  = (Raise AttributeError, w)
  /\ (forall status_message,
        fst (Requests.check_status_last_code_requests status_message
               [("A", 0); ("B", 1)] w)
        = Raise IndexError).
Proof.
  intros w.
  apply (empty_site_behind_raises_AttributeError "A" 0 [("B", 1)] w).
  - reflexivity.
  - apply Exists_cons_hd. reflexivity.
Defined.

(** ** Paths and the file system *)

Section PathFacts.

Import PyStr Pathlib.

Lemma length_append (a b : string) :
  String.length (a +:+ b) = String.length a + String.length b.
Proof.
  induction a as [|x a IH]; [reflexivity|].
  rewrite str_app_cons. simpl. now rewrite IH.
Qed.

Lemma longer_differs (s t : string) :
  String.length t < String.length s -> String.eqb s t = false.
Proof. intros H. apply String.eqb_neq. intros ->. lia. Qed.

Lemma get_model_file_length (name : string) :
  10 <= String.length (get_model_file name).
Proof. rewrite get_model_file_eq, length_append. simpl. lia. Qed.

Lemma get_model_file_kept (name : string) : kept (get_model_file name) = true.
Proof.
  pose proof (get_model_file_length name) as H.
  unfold kept. rewrite !longer_differs; [reflexivity | simpl; lia..].
Qed.

Lemma get_model_file_not_dotdot (name : string) :
  String.eqb (get_model_file name) ".." = false.
Proof.
  pose proof (get_model_file_length name) as H.
  apply longer_differs. simpl. lia.
Qed.

Lemma get_model_file_plain (name : string) :
  has_char "/" name = false -> has_char "/" (get_model_file name) = false.
Proof.
  intros H. now rewrite get_model_file_eq, has_char_append, normalise_slash, H.
Qed.

Lemma split_slash_plain (s : string) :
  has_char "/" s = false -> split_slash s = [s].
Proof.
  induction s as [|c s IH]; [reflexivity|].
  simpl. intros H. apply orb_false_elim in H as [Hc Hs].
  now rewrite Hc, (IH Hs).
Qed.

Lemma splitroot_plain (s : string) :
  has_char "/" s = false -> splitroot s = (NoRoot, s).
Proof.
  destruct s as [|c s]; [reflexivity|].
  simpl. intros H. apply orb_false_elim in H as [Hc _].
  destruct c as [[] [] [] [] [] [] [] []]; try reflexivity; discriminate.
Qed.

Lemma parse_plain (s : string) :
  has_char "/" s = false -> kept s = true ->
  parse s = {| root := NoRoot; parts := [s] |}.
Proof.
  intros Hs Hk. unfold parse.
  rewrite (splitroot_plain _ Hs), (split_slash_plain _ Hs).
  f_equal. rewrite filter_cons_True by exact Hk. reflexivity.
Qed.

(** Under a folder, the file of a site whose name has no slash is one more
    component. *)
Lemma model_path_parts (folder : Path) (name : string) :
  has_char "/" name = false ->
  folder </> get_model_file name
  = {| root := root folder; parts := parts folder ++ [get_model_file name] |}.
Proof.
  intros H. unfold truediv.
  now rewrite (parse_plain _ (get_model_file_plain _ H) (get_model_file_kept _)).
Qed.

Lemma startswith_refl (s : string) : startswith s s = true.
Proof.
  induction s as [|c s IH]; [reflexivity|].
  simpl. now rewrite Ascii.eqb_refl.
Qed.

Lemma contains_suffix (pre s : string) : contains s (pre +:+ s) = true.
Proof.
  induction pre as [|c pre IH].
  - rewrite str_app_nil_l. destruct s; simpl; [reflexivity|].
    now rewrite Ascii.eqb_refl, startswith_refl.
  - rewrite str_app_cons. simpl. rewrite IH. apply orb_true_r.
Qed.

End PathFacts.

Section FileSystemFacts.

Import FS.

Lemma walk_app (t : gmap (list string) inode) (cur : list string)
    (l1 l2 : list string) :
  walk t cur (l1 ++ l2)
  = match walk t cur l1 with
    | Ok c => walk t c l2
    | Raise e => Raise e
    end.
Proof.
  revert cur. induction l1 as [|c l1 IH]; intros cur; [reflexivity|].
  cbn [walk app]. destruct (t !! cur) as [[|]|]; auto.
Qed.

(** Resolution only looks at directories: it goes the same way in any file
    system that still has them. *)
Lemma walk_mono (t t' : gmap (list string) inode) (cur : list string)
    (names : list string) (loc : list string) :
  (forall l, t !! l = Some Directory -> t' !! l = Some Directory) ->
  walk t cur names = Ok loc -> walk t' cur names = Ok loc.
Proof.
  intros Hdirs. revert cur.
  induction names as [|c names IH]; intros cur; [trivial|].
  cbn [walk]. destruct (t !! cur) as [[|]|] eqn:E; try discriminate.
  rewrite (Hdirs _ E). apply IH.
Qed.

Lemma set_inode_dir_id (fs : filesystem) (loc : list string) :
  inodes fs !! loc = Some Directory -> set_inode loc Directory fs = fs.
Proof.
  intros H. destruct fs as [t c]. unfold set_inode. simpl in *.
  f_equal. now apply insert_id.
Qed.

Lemma set_inode_twice (fs : filesystem) (loc : list string) (i j : inode) :
  set_inode loc j (set_inode loc i fs) = set_inode loc j fs.
Proof. unfold set_inode. simpl. f_equal. apply insert_insert_eq. Qed.

(** [mkdir(exist_ok=True)] succeeds when the path resolves to a place that
    is free or holds a directory. *)
Lemma mkdir_exist_ok_ready (fs : filesystem) (p : Pathlib.Path) (dloc : list string) :
  resolve fs p = Ok dloc ->
  (forall data, inodes fs !! dloc <> Some (File data)) ->
  mkdir_exist_ok p fs = (Ok tt, set_inode dloc Directory fs).
Proof.
  intros Hres Hfree. unfold mkdir_exist_ok, os_mkdir. rewrite Hres.
  destruct (inodes fs !! dloc) as [[data|]|] eqn:E.
  - now destruct (Hfree data).
  - unfold is_dir. rewrite Hres, E. now rewrite set_inode_dir_id.
  - reflexivity.
Qed.

(** The directory is there once [mkdir(exist_ok=True)] has returned. *)
Lemma mkdir_exist_ok_dir (fs fs' : filesystem) (p : Pathlib.Path) :
  mkdir_exist_ok p fs = (Ok tt, fs') -> dir_at fs' p = true.
Proof.
  unfold mkdir_exist_ok, os_mkdir, dir_at.
  destruct (resolve fs p) as [loc|e] eqn:Hres.
  - destruct (inodes fs !! loc) as [i|] eqn:E.
    + unfold is_dir. rewrite Hres, E.
      destruct i; intros [= <-]. now rewrite Hres, E.
    + intros [= <-]. unfold resolve, set_inode in *. simpl.
      erewrite walk_mono; [| |exact Hres].
      * now rewrite lookup_insert_eq.
      * intros l Hl. rewrite lookup_insert_ne; [exact Hl|congruence].
  - destruct e; try discriminate; unfold is_dir; rewrite Hres; discriminate.
Qed.

(** What was written under a path is what the path holds afterwards. *)
Lemma file_at_written (fs : filesystem) (p : Pathlib.Path)
    (loc : list string) (data : list byte) :
  resolve fs p = Ok loc ->
  inodes fs !! loc <> Some Directory ->
  resolve (set_inode loc (File data) fs) p = Ok loc
  /\ file_at (set_inode loc (File data) fs) p = Some data.
Proof.
  intros Hres Hnd.
  assert (H : resolve (set_inode loc (File data) fs) p = Ok loc).
  { unfold resolve in *. cbn [set_inode inodes]. 
    eapply walk_mono; [|exact Hres].
    intros l Hl. rewrite lookup_insert_ne; [exact Hl|congruence]. }
  split; [exact H|].
  unfold file_at. rewrite H. cbn [set_inode inodes].
  now rewrite lookup_insert_eq.
Qed.

End FileSystemFacts.

Section DumpFacts.

Import FS.

(** [dump_model] in one step: the folder, then the file, then the view of
    the buffer, which a closed buffer refuses. *)
Lemma dump_model_steps (name root : string) (s : store) :
  dump_model name root s
  = let folder := Pathlib.parse root in
    let filepath := folder </> get_model_file name in
    match mkdir_exist_ok folder (disk s) with
    | (Raise e, fs1) => (Raise e, {| disk := fs1; model_buffer := model_buffer s |})
    | (Ok _, fs1) =>
        match resolve fs1 filepath with
        | Raise e => (Raise e, {| disk := fs1; model_buffer := model_buffer s |})
        | Ok loc =>
            match inodes fs1 !! loc with
            | Some Directory =>
                (Raise IsADirectoryError,
                 {| disk := fs1; model_buffer := model_buffer s |})
            | _ =>
                if closed (model_buffer s)
                then (Raise ValueError,
                      {| disk := set_inode loc (File []) fs1;
                         model_buffer := model_buffer s |})
                else (Ok ("Model saved in " +:+ Pathlib.str filepath),
                      {| disk := set_inode loc (File (getvalue (model_buffer s))) fs1;
                         model_buffer := model_buffer s |})
            end
        end
    end.
Proof.
  unfold dump_model. cbv zeta. unfold bind at 1. unfold on_disk at 1.
  destruct (mkdir_exist_ok (Pathlib.parse root) (disk s)) as [[[]|e] fs1];
    [|reflexivity].
  unfold bind at 1. unfold on_disk at 1. cbn [disk model_buffer].
  unfold open_wb.
  destruct (resolve fs1 _) as [loc|e]; [|reflexivity].
  assert (H : write loc (getvalue (model_buffer s)) (set_inode loc (File []) fs1)
              = (Ok (length (getvalue (model_buffer s))),
                 set_inode loc (File (getvalue (model_buffer s))) fs1)).
  { unfold write. cbn [inodes set_inode]. rewrite lookup_insert_eq.
    now rewrite set_inode_twice. }
  destruct (inodes fs1 !! loc) as [[|]|];
    [|reflexivity|];
    unfold bind, on_buffer, on_disk, Stream.getbuffer, ret;
    cbn [disk model_buffer];
    (destruct (closed (model_buffer s)); cbn [disk model_buffer];
     [reflexivity | now rewrite H]).
Qed.

(** When [dump_model] returns, the buffer was open, the path it names
    holds all the bytes of the buffer, and the buffer is as it was. *)
Lemma dump_model_returns (name root : string) (s s' : store) (msg : string) :
  dump_model name root s = (Ok msg, s') ->
  msg = "Model saved in " +:+ Pathlib.str (Pathlib.parse root </> get_model_file name)
  /\ model_buffer s' = model_buffer s
  /\ dir_at (disk s') (Pathlib.parse root) = true
  /\ file_at (disk s') (Pathlib.parse root </> get_model_file name)
     = Some (getvalue (model_buffer s)).
Proof.
  rewrite dump_model_steps. cbv zeta.
  destruct (mkdir_exist_ok _ (disk s)) as [[[]|e] fs1] eqn:Emk; [|discriminate].
  destruct (resolve fs1 _) as [loc|e] eqn:Eres; [|discriminate].
  pose proof (mkdir_exist_ok_dir _ _ _ Emk) as Hdir.
  assert (Hkeep : forall data, inodes fs1 !! loc <> Some Directory ->
            dir_at (set_inode loc (File data) fs1) (Pathlib.parse root) = true).
  { intros data Hnd. unfold dir_at, resolve in Hdir |- *.
    cbn [set_inode inodes].
    change (start (set_inode loc (File data) fs1) (Pathlib.parse root))
      with (start fs1 (Pathlib.parse root)).
    destruct (walk (inodes fs1) (start fs1 (Pathlib.parse root)) _)
      as [dl|] eqn:Ew; [|discriminate].
    erewrite walk_mono; [| |exact Ew].
    - destruct (inodes fs1 !! dl) as [[|]|] eqn:Ed; try discriminate.
      rewrite lookup_insert_ne; [now rewrite Ed|congruence].
    - intros l Hl. rewrite lookup_insert_ne; [exact Hl|congruence]. }
  destruct (closed (model_buffer s));
    [destruct (inodes fs1 !! loc) as [[|]|]; discriminate|].
  destruct (inodes fs1 !! loc) as [[data|]|] eqn:E; [|discriminate|];
    intros [= <- <-]; cbn [disk model_buffer];
    (split; [reflexivity|]); (split; [reflexivity|]);
    (split; [apply Hkeep; congruence|]);
    apply file_at_written; congruence.
Qed.

Lemma dump_model_returns_open (name root : string) (s s' : store) (msg : string) :
  dump_model name root s = (Ok msg, s') -> closed (model_buffer s) = false.
Proof.
  rewrite dump_model_steps. cbv zeta.
  destruct (mkdir_exist_ok _ (disk s)) as [[[]|e] fs1]; [|discriminate].
  destruct (resolve fs1 _) as [loc|e]; [|discriminate].
  destruct (closed (model_buffer s)); [|reflexivity].
  destruct (inodes fs1 !! loc) as [[|]|]; discriminate.
Qed.

End DumpFacts.

(** C2. The file name is not injective in the site name: ["Site A"] and
    ["site_a"] are two names with one file name. Two names with one file name
    are dumped to one path, and the second dump replaces the first without
    an error. *)
Theorem get_model_file_collides :
  (exists a b : string, a <> b /\ get_model_file a = get_model_file b)
  /\ (forall (a b root : string) (s : store),
        get_model_file a = get_model_file b ->
        dump_model a root s = dump_model b root s)
  /\ (let fs := {| FS.inodes := {[ [] := FS.Directory ]}; FS.cwd := [] |} in
      let first := {| getvalue := [x01; x02]; tell := 0; closed := false |} in
      let second := {| getvalue := [x03]; tell := 0; closed := false |} in
      let '(r1, s1) :=
        dump_model "Site A" default_root {| disk := fs; model_buffer := first |} in
      let '(r2, s2) :=
        dump_model "site_a" default_root {| disk := disk s1; model_buffer := second |} in
      r1 = Ok "Model saved in models/site_a_model.jbl"
      /\ r2 = r1
      /\ FS.file_at (disk s1) (Pathlib.parse "models/site_a_model.jbl") = Some [x01; x02]
      /\ FS.file_at (disk s2) (Pathlib.parse "models/site_a_model.jbl") = Some [x03]).
Proof.
  split; [|split].
  - exists "Site A", "site_a". split; [discriminate | reflexivity].
  - intros a b root s H. unfold dump_model. now rewrite H.
  - vm_compute. repeat split; reflexivity.
Qed.

(** C5, as the code has it. For a site name without a slash and a buffer
    that is open, when the root resolves (every directory above it exists)
    to a place that is free or holds a directory, and the place of the model
    file does not hold a directory, [dump_model] leaves the root as a
    directory, puts all the bytes of the buffer into [root/<file name>],
    whatever was there, and returns ["Model saved in "] followed by that
    path; nothing else on the disk changes and the buffer is as it was. *)
Theorem dump_model_writes (name root : string) (s : store) (dloc : list string) :
  PyStr.has_char "/" name = false ->
  closed (model_buffer s) = false ->
  FS.resolve (disk s) (Pathlib.parse root) = Ok dloc ->
  (forall data, FS.inodes (disk s) !! dloc <> Some (FS.File data)) ->
  FS.inodes (disk s) !! (dloc ++ [get_model_file name]) <> Some FS.Directory ->
  let filepath := Pathlib.parse root </> get_model_file name in
  let message := "Model saved in " +:+ Pathlib.str filepath in
  let after :=
    FS.set_inode (dloc ++ [get_model_file name]) (FS.File (getvalue (model_buffer s)))
      (FS.set_inode dloc FS.Directory (disk s)) in
  dump_model name root s = (Ok message, {| disk := after; model_buffer := model_buffer s |})
  /\ PyStr.contains (Pathlib.str filepath) message = true
  /\ FS.dir_at after (Pathlib.parse root) = true
  /\ FS.file_at after filepath = Some (getvalue (model_buffer s)).
Proof.
  intros Hname Hopen Hres Hfree Hfile filepath message after.
  assert (Hdump : dump_model name root s
                  = (Ok message, {| disk := after; model_buffer := model_buffer s |})).
  { rewrite dump_model_steps. cbv zeta.
    rewrite (mkdir_exist_ok_ready _ _ _ Hres Hfree).
    set (fs1 := FS.set_inode dloc FS.Directory (disk s)).
    assert (Hloc : FS.resolve fs1 (Pathlib.parse root </> get_model_file name)
                   = Ok (dloc ++ [get_model_file name])).
    { rewrite (model_path_parts _ _ Hname). unfold FS.resolve.
      change (FS.start fs1 _) with (FS.start (disk s) (Pathlib.parse root)).
      cbn [Pathlib.parts]. rewrite walk_app.
      erewrite walk_mono; [| |exact Hres].
      - cbn [FS.walk fs1 FS.set_inode FS.inodes].
        now rewrite lookup_insert_eq, get_model_file_not_dotdot.
      - intros l Hl. cbn [fs1 FS.set_inode FS.inodes].
        destruct (decide (dloc = l)) as [->|Hne];
          [apply lookup_insert_eq | now rewrite lookup_insert_ne]. }
    rewrite Hloc.
    assert (Hsame : FS.inodes fs1 !! (dloc ++ [get_model_file name])
                    = FS.inodes (disk s) !! (dloc ++ [get_model_file name])).
    { cbn [fs1 FS.set_inode FS.inodes]. apply lookup_insert_ne.
      intros E. apply (f_equal length) in E. rewrite length_app in E.
      simpl in E. lia. }
    rewrite Hsame, Hopen.
    destruct (FS.inodes (disk s) !! (dloc ++ [get_model_file name])) as [[|]|];
      [reflexivity | congruence | reflexivity]. }
  split; [exact Hdump|].
  split; [apply contains_suffix|].
  destruct (dump_model_returns _ _ _ _ _ Hdump) as (_ & _ & Hd & Hf).
  split; [exact Hd | exact Hf].
Qed.

(** The default call in a fresh working directory. *)
Lemma dump_model_writes_witness :
  let s := {| disk := {| FS.inodes := {[ [] := FS.Directory;
                                         ["work"] := FS.Directory ]};
                         FS.cwd := ["work"] |};
              model_buffer := {| getvalue := [x01; x02; x03]; tell := 3; closed := false |} |} in
  FS.file_at (disk (snd (dump_model "My Site.One" default_root s)))
             (Pathlib.parse "models/my_siteone_model.jbl")
  = Some [x01; x02; x03].
Proof.
  intros s.
  pose proof (dump_model_writes "My Site.One" default_root s ["work"; "models"]
                eq_refl eq_refl eq_refl) as H.
  cbv zeta in H.
  destruct H as (Hd & _ & _ & Hf).
  - intros data. vm_compute. discriminate.
  - vm_compute. discriminate.
  - rewrite Hd. exact Hf.
Defined.

(** C5, as the specification words it, fails: the folder is made without its
    parents, so a root below a directory that does not exist makes
    [dump_model] raise [FileNotFoundError], with nothing created. *)
Lemma dump_model_missing_parent :
  let s := {| disk := {| FS.inodes := {[ [] := FS.Directory;
                                         ["work"] := FS.Directory ]};
                         FS.cwd := ["work"] |};
              model_buffer := {| getvalue := [x01; x02; x03]; tell := 0; closed := false |} |} in
  dump_model "Site" "out/models" s = (Raise FileNotFoundError, s).
Proof. vm_compute. reflexivity. Qed.

(** C10. [dump_model] never changes the buffer, neither its bytes nor its
    position; what it returns and what it leaves on the disk do not depend
    on the position; and when it returns, the file holds all the bytes of the
    buffer. *)
Theorem dump_model_reads_whole_buffer (name root : string) (s : store) :
  model_buffer (snd (dump_model name root s)) = model_buffer s
  /\ (forall pos : nat,
        let moved := {| disk := disk s;
                        model_buffer := {| getvalue := getvalue (model_buffer s);
                                           tell := pos;
                                           closed := closed (model_buffer s) |} |} in
        fst (dump_model name root moved) = fst (dump_model name root s)
        /\ disk (snd (dump_model name root moved)) = disk (snd (dump_model name root s)))
  /\ (forall message : string,
        fst (dump_model name root s) = Ok message ->
        FS.file_at (disk (snd (dump_model name root s)))
                   (Pathlib.parse root </> get_model_file name)
        = Some (getvalue (model_buffer s))).
Proof.
  split; [|split].
  - rewrite dump_model_steps. cbv zeta.
    destruct (FS.mkdir_exist_ok _ _) as [[[]|e] fs1]; [|reflexivity].
    destruct (FS.resolve fs1 _) as [loc|e]; [|reflexivity].
    destruct (FS.inodes fs1 !! loc) as [[|]|], (closed (model_buffer s));
      reflexivity.
  - intros pos moved. rewrite !dump_model_steps. cbv zeta.
    cbn [moved disk model_buffer getvalue closed].
    destruct (FS.mkdir_exist_ok _ _) as [[[]|e] fs1]; [|split; reflexivity].
    destruct (FS.resolve fs1 _) as [loc|e]; [|split; reflexivity].
    destruct (FS.inodes fs1 !! loc) as [[|]|], (closed (model_buffer s));
      split; reflexivity.
  - intros message H.
    destruct (dump_model name root s) as [r s'] eqn:E. simpl in H. subst r.
    now destruct (dump_model_returns _ _ _ _ _ E) as (_ & _ & _ & Hf).
Qed.

(** A buffer left at its end is still written from its first byte. *)
Lemma dump_model_reads_whole_buffer_witness :
  let s := {| disk := {| FS.inodes := {[ [] := FS.Directory ]}; FS.cwd := [] |};
              model_buffer := {| getvalue := [x0a; x0b; x0c]; tell := 3; closed := false |} |} in
  FS.file_at (disk (snd (dump_model "Lab 1" default_root s)))
             (Pathlib.parse default_root </> get_model_file "Lab 1")
  = Some [x0a; x0b; x0c].
Proof.
  intros s.
  apply (proj2 (proj2 (dump_model_reads_whole_buffer "Lab 1" default_root s))
               "Model saved in models/lab_1_model.jbl").
  vm_compute. reflexivity.
Defined.

(** ** Serialisation *)

Section RoundTrip.

Variable estimator : Type.
Variable pickle : estimator -> list byte.
Variable unpickle : list byte -> result estimator.
Variable consumed : list byte -> nat.

Lemma serialize_value (model : estimator) :
  serialize estimator pickle model
  = {| getvalue := pickle model; tell := 0; closed := false |}.
Proof.
  unfold serialize, joblib_dump, bind, Stream.write, Stream.seek, ret, BytesIO_new.
  cbn [getvalue tell closed snd length]. rewrite drop_nil, app_nil_r. reflexivity.
Qed.

(** Loading a path gives what the library makes of the bytes of its
    file. *)
Lemma load_model_file (fs : FS.filesystem) (p : Pathlib.Path) (data : list byte) :
  FS.file_at fs p = Some data ->
  load_model estimator unpickle consumed p fs = (unpickle data, fs).
Proof.
  unfold FS.file_at, load_model, bind, FS.open_rb.
  destruct (FS.resolve fs p) as [loc|e]; [|discriminate].
  destruct (FS.inodes fs !! loc) as [[d|]|]; try discriminate.
  intros [= ->]. reflexivity.
Qed.

(** C9. [load_model_from_buffer] does not depend on where the buffer
    stands: at any position it returns what the library makes of all the
    bytes, as it does at position 0; the call leaves the bytes as they
    were, and a second call on the buffer it leaves returns the same. On a
    buffer that has been closed the call raises [ValueError], at any
    position as well. *)
Theorem load_model_from_buffer_rewinds (data : list byte) (pos : nat) :
  let there := {| getvalue := data; tell := pos; closed := false |} in
  let at_start := {| getvalue := data; tell := 0; closed := false |} in
  let load := load_model_from_buffer estimator unpickle consumed in
  fst (load there) = unpickle data
  /\ fst (load there) = fst (load at_start)
  /\ getvalue (snd (load there)) = data
  /\ fst (load (snd (load there))) = fst (load there)
  /\ fst (load {| getvalue := data; tell := pos; closed := true |})
     = Raise ValueError.
Proof. repeat split. Qed.

End RoundTrip.

(** ** Plotting helpers *)

Section ConfusionMatrixFacts.

Import Plots.

Variable matrix : Type.
Variable n_classes : matrix -> nat.

(** Drawing a matrix of two classes goes through. *)
Lemma draw_one_two_class (coords : nat * nat) (name : string) (m : matrix)
    (fig : Figure matrix) :
  n_classes m = 2 ->
  exists fig', draw_one matrix n_classes coords name m fig = Ok (fig', m).
Proof.
  intros H. unfold draw_one, display_plot. rewrite H. cbn [length Nat.eqb].
  eexists. reflexivity.
Qed.

(** Drawing a matrix of any other number of classes raises. *)
Lemma draw_one_other (coords : nat * nat) (name : string) (m : matrix)
    (fig : Figure matrix) :
  n_classes m <> 2 ->
  draw_one matrix n_classes coords name m fig = Raise ValueError.
Proof.
  intros H. unfold draw_one, display_plot. cbn [length].
  destruct (Nat.eqb_spec (n_classes m) 2); [contradiction | reflexivity].
Qed.

(** C7, as the code has it. [plot_all_confusion_matrices] always lays out a
    grid of two rows and two columns. With four matrices of two classes it
    returns a figure whose four subplots show them row by row; with three
    it returns as well, a figure whose first three subplots show them and
    whose last subplot is left blank. *)
Theorem plot_all_confusion_matrices_grid
    (cms : dict string matrix) (title : option string) :
  Forall (fun m => n_classes m = 2) (values cms) ->
  (length cms = 4 ->
   exists fig : Figure matrix,
     plot_all_confusion_matrices matrix n_classes cms title = Ok fig
     /\ size (fig_axes matrix fig) = 4
     /\ map (shows matrix fig) [(0, 0); (0, 1); (1, 0); (1, 1)]
        = map Some (values cms))
  /\ (length cms = 3 ->
      exists fig : Figure matrix,
        plot_all_confusion_matrices matrix n_classes cms title = Ok fig
        /\ size (fig_axes matrix fig) = 4
        /\ map (shows matrix fig) [(0, 0); (0, 1); (1, 0)] = map Some (values cms)
        /\ fig_axes matrix fig !! (1, 1) = Some (blank_axes matrix)).
Proof.
  intros Htwo. split; intros Hlen.
  - destruct cms as [|[n1 m1] [|[n2 m2] [|[n3 m3] [|[n4 m4] [|]]]]];
      try discriminate.
    cbn [values map snd] in Htwo.
    inversion Htwo as [|? ? H1 Htwo1]; subst.
    inversion Htwo1 as [|? ? H2 Htwo2]; subst.
    inversion Htwo2 as [|? ? H3 Htwo3]; subst.
    inversion Htwo3 as [|? ? H4 _]; subst.
    unfold plot_all_confusion_matrices, draw_all, draw_one, display_plot.
    cbn [items zip product2 range seq flat_map map app length].
    rewrite H1, H2, H3, H4.
    eexists. split; [reflexivity|]. split; reflexivity.
  - destruct cms as [|[n1 m1] [|[n2 m2] [|[n3 m3] [|]]]]; try discriminate.
    cbn [values map snd] in Htwo.
    inversion Htwo as [|? ? H1 Htwo1]; subst.
    inversion Htwo1 as [|? ? H2 Htwo2]; subst.
    inversion Htwo2 as [|? ? H3 _]; subst.
    unfold plot_all_confusion_matrices, draw_all, draw_one, display_plot.
    cbn [items zip product2 range seq flat_map map app length].
    rewrite H1, H2, H3.
    eexists. split; [reflexivity|]. repeat split; reflexivity.
Qed.

End ConfusionMatrixFacts.

(** Four named matrices of two classes, and three of them; a matrix is its
    list of rows. *)
Lemma plot_all_confusion_matrices_grid_witness :
  let a := [[50; 3]; [4; 43]] in
  let b := [[48; 5]; [6; 41]] in
  let c := [[51; 2]; [9; 38]] in
  let d := [[47; 6]; [2; 45]] in
  (exists fig,
      Plots.plot_all_confusion_matrices (list (list nat)) length
        [("rf", a); ("svm", b); ("mlp", c); ("knn", d)] (Some "All sites") = Ok fig
      /\ size (Plots.fig_axes _ fig) = 4
      /\ map (Plots.shows _ fig) [(0, 0); (0, 1); (1, 0); (1, 1)]
         = [Some a; Some b; Some c; Some d])
  /\ (exists fig,
      Plots.plot_all_confusion_matrices (list (list nat)) length
        [("rf", a); ("svm", b); ("mlp", c)] None = Ok fig
      /\ size (Plots.fig_axes _ fig) = 4
      /\ map (Plots.shows _ fig) [(0, 0); (0, 1); (1, 0)] = [Some a; Some b; Some c]
      /\ Plots.fig_axes _ fig !! (1, 1) = Some (Plots.blank_axes _)).
Proof.
  intros a b c d. split.
  - refine (proj1 (plot_all_confusion_matrices_grid (list (list nat)) length
                     [("rf", a); ("svm", b); ("mlp", c); ("knn", d)]
                     (Some "All sites") _) eq_refl).
    repeat constructor.
  - refine (proj2 (plot_all_confusion_matrices_grid (list (list nat)) length
                     [("rf", a); ("svm", b); ("mlp", c)] None _) eq_refl).
    repeat constructor.
Defined.

(** C7, as the specification words it, fails: with three matrices of two
    classes nothing is raised; the figure comes back with one subplot of the
    grid left blank. *)
Lemma plot_all_confusion_matrices_three_returns :
  let r := Plots.plot_all_confusion_matrices (list (list nat)) length
             [("rf", [[50; 3]; [4; 43]]); ("svm", [[48; 5]; [6; 41]]);
              ("mlp", [[51; 2]; [9; 38]])] None in
  is_ok r = true
  /\ match r with
     | Ok fig => Plots.drawn _ fig ≡ₚ [(0, 0); (0, 1); (1, 0)]
                 /\ Plots.shows _ fig (1, 1) = None
     | Raise _ => False
     end.
Proof.
  vm_compute. split; [reflexivity|]. split; [|reflexivity].
  apply Permutation_swap.
Qed.

Section MetricsFacts.

Import Plots.

Variable float : Type.

Lemma comprehension_lift {St A B} (f : A -> result B) (l : list A) (s : St) :
  comprehension (fun x => lift (f x)) l s = (all_ok (map f l), s).
Proof.
  induction l as [|x l IH]; [reflexivity|].
  cbn [comprehension map all_ok]. unfold bind at 1, lift at 1.
  destruct (f x) as [b|e]; [|reflexivity].
  unfold bind at 1. rewrite IH. now destruct (all_ok (map f l)).
Qed.

Lemma add_lines_nil (c : Chart float) : add_lines float [] c = c.
Proof. destruct c. unfold add_lines. simpl. now rewrite app_nil_r. Qed.

(** The loop over well-formed metrics: one line per question, and [epochs]
    left at the epochs of the last question. *)
Lemma plot_series_lines (series : dict string (list (dict string float)))
    (epochs : option (list nat)) (p : pyplot float) :
  well_formed float series = true ->
  plot_series float series epochs p
  = (Ok (match last series with
         | Some qm => Some (seq 1 (length (snd qm)))
         | None => epochs
         end),
     {| current := add_lines float (map (series_line float) series) (current float p);
        shown := shown float p |}).
Proof.
  revert epochs p. induction series as [|[q ms] rest IH]; intros epochs p Hwf.
  - cbn [plot_series map last]. rewrite add_lines_nil. now destruct p.
  - cbn [well_formed forallb snd] in Hwf. apply andb_true_iff in Hwf as [Hms Hrest].
    cbn [plot_series]. unfold bind at 1. rewrite comprehension_lift.
    fold (accuracies float ms).
    destruct (accuracies float ms) as [acc|e] eqn:Eacc; [|discriminate].
    unfold bind at 1. cbn [plt_plot on_current].
    rewrite (IH _ _ Hrest). cbn [current shown].
    f_equal.
    + destruct rest as [|qm rest']; [reflexivity|].
      change (last ((q, ms) :: qm :: rest')) with (last (qm :: rest')).
      destruct (last (qm :: rest')) eqn:E; [reflexivity|].
      apply last_None in E. discriminate.
    + f_equal. cbn [map].
      unfold series_line at 2, accuracy_values. cbn [fst snd]. rewrite Eacc.
      unfold add_lines. cbn [lines title xlabel ylabel xticks ylim grid legend tight].
      now rewrite <- app_assoc.
Qed.

(** C8, as the code has it. For metrics that are not empty and whose epoch
    records all have an accuracy, [plot_fl_metrics] shows one chart: each
    question's accuracies are plotted against the epochs 1 to the length of
    that question's series, the ticks of the x axis are 1 to the length of
    the series of the last question of the mapping, and the limits of the y
    axis are 0 and 1. *)
Theorem plot_fl_metrics_ticks
    (fl_metrics : dict string (list (dict string float)))
    (title : string) (p : pyplot float) :
  fl_metrics <> [] ->
  well_formed float fl_metrics = true ->
  exists chart : Chart float,
    plot_fl_metrics float fl_metrics title p
    = (Ok tt, {| current := chart; shown := shown float p ++ [chart] |})
    /\ lines float chart = map (series_line float) fl_metrics
    /\ xticks float chart
       = (fun qm => seq 1 (length (snd qm))) <$> last fl_metrics
    /\ ylim float chart = Some (0, 1).
Proof.
  intros Hne Hwf.
  unfold plot_fl_metrics. unfold bind at 1. cbn [plt_figure on_current].
  unfold bind at 1. unfold items. rewrite (plot_series_lines _ _ _ Hwf).
  destruct (last fl_metrics) as [qm|] eqn:Elast.
  - cbv [bind plt_title plt_xlabel plt_ylabel plt_xticks plt_ylim plt_grid
           plt_legend plt_tight_layout plt_show on_current local ret
           current shown lines Plots.title xlabel ylabel xticks ylim grid legend
           tight add_lines blank_chart].
    eexists. split; [reflexivity|].
    repeat split; reflexivity.
  - apply last_None in Elast. contradiction.
Qed.

End MetricsFacts.

(** Two questions with three and one epochs: both lines are there, and the
    ticks follow the second question. *)
Lemma plot_fl_metrics_ticks_witness :
  let epoch := fun a : nat => [("loss", 0); ("accuracy", a)] in
  let fl_metrics := [("q1", [epoch 1; epoch 2; epoch 3]); ("q2", [epoch 5])] in
  exists chart,
    Plots.plot_fl_metrics nat fl_metrics Plots.default_title
      {| Plots.current := Plots.blank_chart nat; Plots.shown := [] |}
    = (Ok tt, {| Plots.current := chart; Plots.shown := [] ++ [chart] |})
    /\ Plots.lines nat chart = map (Plots.series_line nat) fl_metrics
    /\ Plots.xticks nat chart = Some [1]
    /\ Plots.ylim nat chart = Some (0, 1).
Proof.
  intros epoch fl_metrics.
  refine (plot_fl_metrics_ticks nat fl_metrics Plots.default_title
            {| Plots.current := Plots.blank_chart nat; Plots.shown := [] |} _ _).
  - discriminate.
  - reflexivity.
Defined.

(** C8, as the specification words it, fails on the empty mapping: no
    question is iterated, [epochs] is never assigned, and [plot_fl_metrics]
    raises before it has set the ticks or the limits, and shows nothing. *)
Lemma plot_fl_metrics_empty_raises :
  let p := {| Plots.current := Plots.blank_chart nat; Plots.shown := [] |} in
  let after := Plots.plot_fl_metrics nat [] Plots.default_title p in
  fst after = Raise UnboundLocalError
  /\ Plots.ylim nat (Plots.current nat (snd after)) = None
  /\ Plots.shown nat (snd after) = [].
Proof. vm_compute. repeat split; reflexivity. Qed.

(** * Further properties *)

(** ** Request status helpers *)

Section RequestEffects.

Import Requests.

(** A loop over two lists in a row. *)
Lemma for_app {St A} (l1 l2 : list A) (body : A -> M St unit) (s : St) :
  for_ (l1 ++ l2) body s
  = match for_ l1 body s with
    | (Ok _, s1) => for_ l2 body s1
    | (Raise e, s1) => (Raise e, s1)
    end.
Proof.
  revert s. induction l1 as [|x l1 IH]; intros s; [reflexivity|].
  cbn [for_ app]. unfold bind.
  destruct (body x s) as [[[]|e] s1]; [apply IH | reflexivity].
Qed.

(** X1. [approve_last_code_requests] approves nothing: whatever the
    registry, every request and the output are afterwards as they were. It
    returns normally only for the empty registry; otherwise it raises at
    the first site, [IndexError] if that site has no request and
    [AttributeError], from [status.approve()], if it has one, and looks at
    no later site. *)
Theorem approve_last_code_requests_never_approves
    (datasites : dict string DatasiteClient) (w : world) :
  approve_last_code_requests datasites w
  = (match datasites with
     | [] => Ok tt
     | (_, first) :: _ =>
         if has_request w first then Raise AttributeError else Raise IndexError
     end, w).
Proof.
  destruct datasites as [|[name d] rest]; [reflexivity|].
  unfold approve_last_code_requests. cbn [values map snd for_]. unfold bind.
  destruct (has_request w d) eqn:Hd.
  - now rewrite (code_last_some _ _ Hd).
  - now rewrite (code_last_none _ _ Hd).
Qed.

End RequestEffects.

Section RequestComposition.

Import Requests.

(** X5. When some site of the registry has no request,
    [requests_accepted] raises [IndexError] and leaves everything as it
    was. *)
Theorem requests_accepted_empty_site
    (datasites : dict string DatasiteClient) (w : world) :
  Exists (fun d => has_request w d = false) (values datasites) ->
  requests_accepted datasites w = (Raise IndexError, w).
Proof.
  unfold requests_accepted.
  induction (values datasites) as [|d ds IH]; intros Hex; [inversion Hex|].
  cbn [comprehension]. unfold bind at 1.
  destruct (has_request w d) eqn:Hd.
  - rewrite (accepted_one _ _ Hd). unfold bind at 1.
    rewrite IH; [reflexivity|].
    inversion Hex as [? ? H0|? ? H0]; subst; [congruence | exact H0].
  - unfold bind. now rewrite (code_last_none _ _ Hd).
Qed.

Section StatusReport.

Variable status_message : UserCodeStatus -> string.

(** One round of the loop of [check_status_last_code_requests]. *)
Lemma check_one (name : string) (d : DatasiteClient) (w : world) :
  (let* _ := print ("Datasite: " +:+ name) in
   let* last := code_last d in
   let* message := get_status_message status_message last in
   display message) w
  = (if has_request w d then Ok tt else Raise IndexError,
     {| code := code w;
        console := console w ++ site_report status_message w (name, d) |}).
Proof.
  unfold bind at 1. cbn [print]. unfold bind at 1.
  set (w1 := {| code := code w; console := _ |}).
  unfold site_report, last_request. cbn [fst snd].
  destruct (has_request w d) eqn:Hd.
  - rewrite (code_last_some w1 d Hd). unfold bind at 1.
    unfold get_status_message, get_status, bind, ret. cbn [fst snd].
    change (code w1 d) with (code w d). rewrite last_is_lookup.
    unfold has_request in Hd.
    destruct (last (code w d)) as [q|] eqn:E.
    + unfold display, w1. cbn [code console]. now rewrite <- app_assoc.
    + apply last_None in E. rewrite E in Hd. discriminate.
  - rewrite (code_last_none w1 d Hd).
    unfold has_request in Hd.
    destruct (code w d) eqn:E; [reflexivity | discriminate].
Qed.

Lemma check_all (datasites : dict string DatasiteClient) (w : world) :
  Forall (fun d => has_request w d = true) (values datasites) ->
  check_status_last_code_requests status_message datasites w
  = (Ok tt,
     {| code := code w;
        console := console w ++ flat_map (site_report status_message w) datasites |}).
Proof.
  unfold check_status_last_code_requests, items, values.
  revert w. induction datasites as [|[name d] l IH]; intros w Hall.
  - cbn [for_ flat_map]. rewrite app_nil_r. now destruct w.
  - inversion Hall as [|? ? Hd Hl]; subst. cbn [snd] in Hd.
    cbn [for_]. unfold bind at 1. rewrite check_one, Hd.
    rewrite IH by exact Hl. cbn [code console flat_map].
    now rewrite <- app_assoc.
Qed.

(** X6. On a registry whose sites all have a request,
    [check_status_last_code_requests] returns after adding to the output,
    for each site in the order of the registry, the line
    ["Datasite: <name>"] and then the status message of the site's last
    request; it changes no request. *)
Theorem check_status_last_code_requests_reports
    (datasites : dict string DatasiteClient) (w : world) :
  Forall (fun d => has_request w d = true) (values datasites) ->
  check_status_last_code_requests status_message datasites w
  = (Ok tt,
     {| code := code w;
        console := console w ++ flat_map (site_report status_message w) datasites |})
  /\ length (flat_map (site_report status_message w) datasites)
     = 2 * length datasites.
Proof.
  intros Hall. split; [now apply check_all|].
  unfold values in Hall.
  induction datasites as [|[name d] l IH]; [reflexivity|].
  inversion Hall as [|? ? Hd Hl]; subst. cbn [snd] in Hd.
  cbn [flat_map]. rewrite length_app, (IH Hl).
  unfold site_report, last_request. cbn [snd].
  unfold has_request in Hd.
  destruct (last (code w d)) eqn:E; [simpl; lia|].
  apply last_None in E. rewrite E in Hd. discriminate.
Qed.

(** X7. At the first site without a request,
    [check_status_last_code_requests] has already reported the sites in
    front of it and printed the header line of that site when it raises
    [IndexError]; the sites behind are not looked at. *)
Theorem check_status_last_code_requests_stops
    (before after : dict string DatasiteClient) (name : string)
    (d : DatasiteClient) (w : world) :
  Forall (fun d' => has_request w d' = true) (values before) ->
  has_request w d = false ->
  check_status_last_code_requests status_message
    (before ++ (name, d) :: after) w
  = (Raise IndexError,
     {| code := code w;
        console := console w
                   ++ flat_map (site_report status_message w) before
                   ++ [Printed ("Datasite: " +:+ name)] |}).
Proof.
  intros Hall Hd.
  pose proof (check_all _ _ Hall) as Hrun.
  unfold check_status_last_code_requests, items in *.
  rewrite for_app, Hrun. cbn [for_]. unfold bind at 1.
  rewrite check_one. cbn [code console].
  change (has_request {| code := code w; console := _ |} d)
    with (has_request w d).
  rewrite Hd. unfold site_report, last_request. cbn [fst snd code].
  unfold has_request in Hd.
  destruct (code w d) eqn:E; [|discriminate].
  cbn [last]. now rewrite <- app_assoc.
Qed.

End StatusReport.

End RequestComposition.

(** The second site never received a request. *)
Lemma requests_accepted_empty_site_witness :
  let w := {| Requests.code := fun d =>
                match d with
                | 0 => [{| Requests.status := Requests.APPROVED |}]
                | _ => []
                end;
              Requests.console := [] |} in
  Requests.requests_accepted [("A", 0); ("B", 1)] w = (Raise IndexError, w).
Proof.
  intros w.
  apply (requests_accepted_empty_site [("A", 0); ("B", 1)] w).
  apply Exists_cons_tl, Exists_cons_hd. reflexivity.
Defined.

(** Two sites, one approved and one pending. *)
Lemma check_status_last_code_requests_reports_witness :
  let message := fun s =>
    match s with
    | Requests.PENDING => "pending"
    | Requests.DENIED => "denied"
    | Requests.APPROVED => "approved"
    end in
  let w := {| Requests.code := fun d =>
                match d with
                | 0 => [{| Requests.status := Requests.APPROVED |}]
                | _ => [{| Requests.status := Requests.PENDING |}]
                end;
              Requests.console := [] |} in
  Requests.check_status_last_code_requests message [("A", 0); ("B", 1)] w
  = (Ok tt,
     {| Requests.code := Requests.code w;
        Requests.console :=
          [Requests.Printed "Datasite: A"; Requests.Displayed "approved";
           Requests.Printed "Datasite: B"; Requests.Displayed "pending"] |}).
Proof.
  intros message w.
  refine (proj1 (check_status_last_code_requests_reports message
                   [("A", 0); ("B", 1)] w _)).
  repeat constructor.
Defined.

(** The second of three sites never received a request. *)
Lemma check_status_last_code_requests_stops_witness :
  let message := fun s =>
    match s with
    | Requests.PENDING => "pending"
    | Requests.DENIED => "denied"
    | Requests.APPROVED => "approved"
    end in
  let w := {| Requests.code := fun d =>
                match d with
                | 0 => [{| Requests.status := Requests.APPROVED |}]
                | _ => []
                end;
              Requests.console := [] |} in
  Requests.check_status_last_code_requests message [("A", 0); ("B", 1); ("C", 0)] w
  = (Raise IndexError,
     {| Requests.code := Requests.code w;
        Requests.console :=
          [Requests.Printed "Datasite: A"; Requests.Displayed "approved";
           Requests.Printed "Datasite: B"] |}).
Proof.
  intros message w.
  refine (check_status_last_code_requests_stops message
            [("A", 0)] [("C", 0)] "B" 1 w _ _).
  - repeat constructor.
  - reflexivity.
Defined.

(** ** File names and paths *)

Section FileNameFacts.

Import PyStr Pathlib.

Lemma normalise_append (a b : string) :
  normalise (a +:+ b) = normalise a +:+ normalise b.
Proof.
  induction a as [|c a IH]; [reflexivity|].
  rewrite str_app_cons. cbn [normalise]. now rewrite IH, str_app_assoc.
Qed.

Lemma normalise_char_lower (c : ascii) :
  normalise_char (lower_char c) = normalise_char c.
Proof. destruct c as [[] [] [] [] [] [] [] []]; reflexivity. Qed.

Lemma normalise_lower (s : string) : normalise (lower s) = normalise s.
Proof.
  induction s as [|c s IH]; [reflexivity|].
  cbn [lower normalise]. now rewrite IH, normalise_char_lower.
Qed.

Lemma normalise_subst_dot (s : string) :
  normalise (subst_char "." "" s) = normalise s.
Proof.
  induction s as [|c s IH]; [reflexivity|].
  cbn [subst_char]. rewrite normalise_append, IH. f_equal.
  destruct c as [[] [] [] [] [] [] [] []]; reflexivity.
Qed.

Lemma normalise_subst_space (s : string) :
  normalise (subst_char " " "_" s) = normalise s.
Proof.
  induction s as [|c s IH]; [reflexivity|].
  cbn [subst_char]. rewrite normalise_append, IH. f_equal.
  destruct c as [[] [] [] [] [] [] [] []]; reflexivity.
Qed.

(** X8. The file name does not see what the normalisation removes: a name,
    its lowercase form, the name without its dots and the name with
    underscores for its spaces all have the same model file. *)
Theorem get_model_file_insensitive (name : string) :
  get_model_file (lower name) = get_model_file name
  /\ get_model_file (replace "." "" name) = get_model_file name
  /\ get_model_file (replace " " "_" name) = get_model_file name.
Proof.
  rewrite !get_model_file_eq, !replace_one_char.
  now rewrite normalise_lower, normalise_subst_dot, normalise_subst_space.
Qed.

Lemma normalise_char_clean_id (c : ascii) :
  Ascii.eqb c "." = false -> Ascii.eqb c " " = false -> lower_char c = c ->
  normalise_char c = String c "".
Proof. intros Hd Hs Hl. unfold normalise_char. now rewrite Hd, Hs, Hl. Qed.

Lemma normalise_clean_id (s : string) :
  has_char "." s = false -> has_char " " s = false -> lower s = s ->
  normalise s = s.
Proof.
  induction s as [|c s IH]; [reflexivity|].
  cbn [has_char lower normalise]. intros Hd Hs Hl.
  apply orb_false_elim in Hd as [Hd1 Hd2].
  apply orb_false_elim in Hs as [Hs1 Hs2].
  injection Hl as Hl1 Hl2.
  now rewrite (normalise_char_clean_id _ Hd1 Hs1 Hl1), (IH Hd2 Hs2 Hl2).
Qed.

Lemma append_cancel_r (a b t : string) : a +:+ t = b +:+ t -> a = b.
Proof.
  revert b. induction a as [|x a IH]; intros [|y b] H.
  - reflexivity.
  - apply (f_equal String.length) in H.
    rewrite str_app_nil_l, str_app_cons in H. cbn [String.length] in H.
    rewrite length_append in H. lia.
  - apply (f_equal String.length) in H.
    rewrite str_app_nil_l, str_app_cons in H. cbn [String.length] in H.
    rewrite length_append in H. lia.
  - rewrite !str_app_cons in H. injection H as -> H. f_equal. now apply IH.
Qed.

(** X9. On names that are already normal (no dot, no space, no capital
    letter) the file name is the name followed by ["_model.jbl"], and two
    such names with the same file are the same name: collisions need a
    dot, a space or a capital. *)
Theorem get_model_file_injective_on_clean (a b : string) :
  has_char "." a = false -> has_char " " a = false -> lower a = a ->
  has_char "." b = false -> has_char " " b = false -> lower b = b ->
  get_model_file a = a +:+ "_model.jbl"
  /\ (get_model_file a = get_model_file b -> a = b).
Proof.
  intros Had Has Hal Hbd Hbs Hbl.
  rewrite !get_model_file_eq.
  rewrite (normalise_clean_id a), (normalise_clean_id b) by assumption.
  split; [reflexivity | apply append_cancel_r].
Qed.

Lemma count_char_append (c : ascii) (a b : string) :
  count_char c (a +:+ b) = count_char c a + count_char c b.
Proof.
  induction a as [|x a IH]; [reflexivity|].
  rewrite str_app_cons. cbn [count_char]. rewrite IH. lia.
Qed.

Lemma count_char_absent (c : ascii) (s : string) :
  has_char c s = false -> count_char c s = 0.
Proof.
  induction s as [|x s IH]; [reflexivity|].
  cbn [has_char count_char]. intros H. apply orb_false_elim in H as [H1 H2].
  now rewrite H1, (IH H2).
Qed.

Lemma get_model_file_one_dot (name : string) :
  count_char "." (get_model_file name) = 1.
Proof.
  rewrite get_model_file_eq, count_char_append.
  rewrite count_char_absent by apply normalise_clean. reflexivity.
Qed.

(** No component of a split string has more of a character than the
    string. *)
Lemma split_slash_count (c : ascii) (s : string) :
  Forall (fun x => count_char c x <= count_char c s) (split_slash s).
Proof.
  induction s as [|a s IH]; [repeat constructor|].
  cbn [split_slash count_char].
  destruct (Ascii.eqb a "/").
  - constructor; [simpl; lia|].
    eapply Forall_impl; [exact IH|]. intros x Hx. cbn beta in *. lia.
  - destruct (split_slash s) as [|x r]; [repeat constructor; simpl; lia|].
    inversion IH as [|? ? Hx Hr]; subst.
    constructor; [cbn [count_char]; lia|].
    eapply Forall_impl; [exact Hr|]. intros y Hy. cbn beta in *. lia.
Qed.

Lemma splitroot_count (c : ascii) (s : string) :
  count_char c (snd (splitroot s)) <= count_char c s.
Proof.
  destruct s as [|c1 s1]; [reflexivity|].
  destruct c1 as [[] [] [] [] [] [] [] []]; try (cbn; lia).
  destruct s1 as [|c2 s2]; [cbn; lia|].
  destruct c2 as [[] [] [] [] [] [] [] []]; try (cbn; lia).
  destruct s2 as [|c3 s3]; [cbn; lia|].
  destruct c3 as [[] [] [] [] [] [] [] []]; cbn; lia.
Qed.

(** X10. No site name makes the model path climb: dots are removed from
    the name, so the path made of the file name never has a [..]
    component. *)
Theorem get_model_file_never_climbs (name : string) :
  ".." ∉ parts (parse (get_model_file name)).
Proof.
  pose proof (get_model_file_one_dot name) as Hone.
  pose proof (splitroot_count "." (get_model_file name)) as Hrel.
  unfold parse. destruct (splitroot (get_model_file name)) as [r rel].
  cbn [snd parts] in *. intros Hin.
  apply list_elem_of_filter in Hin as [_ Hin].
  pose proof (split_slash_count "." rel) as Hall.
  rewrite Forall_forall in Hall. specialize (Hall _ Hin).
  cbn in Hall. lia.
Qed.

Lemma splitroot_rooted (s : string) :
  fst (splitroot (String "/" s)) <> NoRoot.
Proof.
  destruct s as [|c2 s2]; [discriminate|].
  destruct c2 as [[] [] [] [] [] [] [] []]; try discriminate.
  destruct s2 as [|c3 s3]; [discriminate|].
  destruct c3 as [[] [] [] [] [] [] [] []]; discriminate.
Qed.

(** X11. A site name that starts with a slash escapes the root: the file
    name is then a rooted path, [root / filename] is that path alone, and
    it is resolved from the root directory of the file system whatever
    [root] and the working directory are. *)
Theorem get_model_file_absolute_name (rest root : string) (fs : FS.filesystem) :
  let name := String "/" rest in
  parse root </> get_model_file name = parse (get_model_file name)
  /\ FS.start fs (parse root </> get_model_file name) = [].
Proof.
  intros name.
  assert (Hroot : Pathlib.root (parse (get_model_file name)) <> NoRoot).
  { unfold name. rewrite get_model_file_eq. cbn [normalise].
    change (normalise_char "/") with "/". rewrite str_app_assoc, str_app_cons, str_app_nil_l.
    pose proof (splitroot_rooted (normalise rest +:+ "_model.jbl")) as H.
    unfold parse. destruct (splitroot _) as [r rel]. exact H. }
  assert (Hdiv : parse root </> get_model_file name = parse (get_model_file name)).
  { unfold truediv. destruct (Pathlib.root (parse (get_model_file name)));
      [congruence | reflexivity | reflexivity]. }
  split; [exact Hdiv|].
  rewrite Hdiv. unfold FS.start.
  destruct (Pathlib.root (parse (get_model_file name))); [congruence | reflexivity..].
Qed.

End FileNameFacts.

(** Two names without dots, spaces and capitals. *)
Lemma get_model_file_injective_on_clean_witness :
  get_model_file "site_a" = "site_a_model.jbl"
  /\ (get_model_file "site_a" = get_model_file "lab_2" -> "site_a" = "lab_2").
Proof.
  apply (get_model_file_injective_on_clean "site_a" "lab_2"); reflexivity.
Defined.

(** ** Dumping and loading *)

Section DumpErrors.

Import FS.

Lemma walk_raises (t : gmap (list string) inode) (cur : list string)
    (names : list string) (e : exn) :
  walk t cur names = Raise e -> e = FileNotFoundError \/ e = NotADirectoryError.
Proof.
  revert cur. induction names as [|c names IH]; intros cur; [discriminate|].
  cbn [walk]. destruct (t !! cur) as [[|]|].
  - intros [= <-]. now right.
  - apply IH.
  - intros [= <-]. now left.
Qed.

Lemma store_eta (s : store) :
  {| disk := disk s; model_buffer := model_buffer s |} = s.
Proof. now destruct s. Qed.

(** [mkdir(exist_ok=True)] passes on the error of a root that does not
    resolve. *)
Lemma mkdir_exist_ok_unresolved (fs : filesystem) (p : Pathlib.Path) (e : exn) :
  resolve fs p = Raise e -> mkdir_exist_ok p fs = (Raise e, fs).
Proof.
  intros Hres. unfold mkdir_exist_ok, os_mkdir. rewrite Hres.
  destruct (walk_raises _ _ _ _ Hres) as [-> | ->]; [reflexivity|].
  unfold is_dir. now rewrite Hres.
Qed.

(** What [mkdir(exist_ok=True)] can do to the disk: nothing, or one new
    directory at a free place. *)
Lemma mkdir_exist_ok_effect (fs : filesystem) (p : Pathlib.Path) :
  snd (mkdir_exist_ok p fs) = fs
  \/ exists dloc, inodes fs !! dloc = None
                  /\ mkdir_exist_ok p fs = (Ok tt, set_inode dloc Directory fs).
Proof.
  unfold mkdir_exist_ok, os_mkdir.
  destruct (resolve fs p) as [loc|e] eqn:Hres.
  - destruct (inodes fs !! loc) as [[|]|] eqn:E.
    + unfold is_dir. rewrite Hres, E. now left.
    + unfold is_dir. rewrite Hres, E. now left.
    + right. now exists loc.
  - left. destruct e; try reflexivity; unfold is_dir; rewrite Hres; reflexivity.
Qed.

(** X12. When the root cannot be resolved, because a directory above it
    is missing or is a file, [dump_model] raises the error of that
    resolution, [FileNotFoundError] or [NotADirectoryError], and leaves
    the disk and the buffer as they were. *)
Theorem dump_model_unresolved_root (name root : string) (s : store) (e : exn) :
  resolve (disk s) (Pathlib.parse root) = Raise e ->
  dump_model name root s = (Raise e, s)
  /\ (e = FileNotFoundError \/ e = NotADirectoryError).
Proof.
  intros Hres. split; [|exact (walk_raises _ _ _ _ Hres)].
  rewrite dump_model_steps. cbv zeta.
  rewrite (mkdir_exist_ok_unresolved _ _ _ Hres). now rewrite store_eta.
Qed.

(** X13. When the root names a regular file, [dump_model] raises
    [FileExistsError] and leaves the disk and the buffer as they were:
    [exist_ok] only forgives a directory. *)
Theorem dump_model_root_is_file (name root : string) (s : store)
    (dloc : list string) (data : list byte) :
  resolve (disk s) (Pathlib.parse root) = Ok dloc ->
  inodes (disk s) !! dloc = Some (File data) ->
  dump_model name root s = (Raise FileExistsError, s).
Proof.
  intros Hres Hfile. rewrite dump_model_steps. cbv zeta.
  unfold mkdir_exist_ok, os_mkdir. rewrite Hres, Hfile.
  unfold is_dir. rewrite Hres, Hfile. now rewrite store_eta.
Qed.

(** X14. When the root is a directory and the place of the model file
    holds a directory, [dump_model] raises [IsADirectoryError] and leaves
    the disk and the buffer as they were. *)
Theorem dump_model_target_is_directory (name root : string) (s : store)
    (dloc : list string) :
  PyStr.has_char "/" name = false ->
  resolve (disk s) (Pathlib.parse root) = Ok dloc ->
  inodes (disk s) !! dloc = Some Directory ->
  inodes (disk s) !! (dloc ++ [get_model_file name]) = Some Directory ->
  dump_model name root s = (Raise IsADirectoryError, s).
Proof.
  intros Hname Hres Hdir Htarget. rewrite dump_model_steps. cbv zeta.
  rewrite (mkdir_exist_ok_ready _ _ _ Hres) by (intros data; congruence).
  rewrite (set_inode_dir_id _ _ Hdir).
  rewrite (model_path_parts _ _ Hname). unfold resolve in *.
  cbn [Pathlib.parts Pathlib.root start] in *.
  change (start (disk s) {| Pathlib.root := Pathlib.root (Pathlib.parse root);
                            Pathlib.parts := _ |})
    with (start (disk s) (Pathlib.parse root)).
  rewrite walk_app, Hres. cbn [walk].
  rewrite Hdir, get_model_file_not_dotdot. cbn [walk].
  rewrite Htarget. now rewrite store_eta.
Qed.

(** X15. Whatever [dump_model] does, it keeps the working directory and
    every directory of the disk; and when it raises on a buffer that is
    open, it has written no file: the files of the disk are the same before
    and after. *)
Theorem dump_model_keeps_the_rest (name root : string) (s : store) :
  let after := disk (snd (dump_model name root s)) in
  cwd after = cwd (disk s)
  /\ (forall l, inodes (disk s) !! l = Some Directory ->
                inodes after !! l = Some Directory)
  /\ (closed (model_buffer s) = false ->
      is_ok (fst (dump_model name root s)) = false ->
      forall l data, inodes after !! l = Some (File data)
                     <-> inodes (disk s) !! l = Some (File data)).
Proof.
  cbv zeta. rewrite dump_model_steps. cbv zeta.
  destruct (mkdir_exist_ok_effect (disk s) (Pathlib.parse root))
    as [Hsame | (dloc & Hfree & Hmk)].
  - destruct (mkdir_exist_ok _ (disk s)) as [[[]|e] fs1]; cbn [snd] in Hsame; subst fs1.
    + destruct (resolve (disk s) _) as [loc|e] eqn:Hres.
      * destruct (inodes (disk s) !! loc) as [[old|]|] eqn:E,
          (closed (model_buffer s));
          cbn [fst snd disk is_ok set_inode inodes cwd];
          (split; [reflexivity|]);
          (split; [|try discriminate; tauto]);
          intros l Hl; rewrite ?lookup_insert_ne by congruence; exact Hl.
      * cbn [fst snd disk is_ok]. repeat split; tauto.
    + cbn [fst snd disk is_ok]. repeat split; tauto.
  - rewrite Hmk.
    assert (Hdirs : forall l, inodes (disk s) !! l = Some Directory ->
              inodes (set_inode dloc Directory (disk s)) !! l = Some Directory).
    { intros l Hl. cbn [set_inode inodes].
      rewrite lookup_insert_ne by congruence. exact Hl. }
    assert (Hfiles : forall l data,
              inodes (set_inode dloc Directory (disk s)) !! l = Some (File data)
              <-> inodes (disk s) !! l = Some (File data)).
    { intros l data. cbn [set_inode inodes].
      destruct (decide (dloc = l)) as [<-|Hne].
      - rewrite lookup_insert_eq, Hfree. split; discriminate.
      - now rewrite lookup_insert_ne. }
    destruct (resolve (set_inode dloc Directory (disk s)) _) as [loc|e] eqn:Hres.
    + destruct (inodes (set_inode dloc Directory (disk s)) !! loc)
        as [[old|]|] eqn:E, (closed (model_buffer s));
        cbn [fst snd disk is_ok];
        (split; [reflexivity|]);
        (split; [|try discriminate; intros _ _; exact Hfiles]);
        intros l Hl; try (now apply Hdirs);
        cbn [set_inode inodes]; rewrite lookup_insert_ne;
          try (apply Hdirs in Hl; exact Hl);
          intros ->; apply Hdirs in Hl; congruence.
    + cbn [fst snd disk is_ok]. split; [reflexivity|]. split; [exact Hdirs|].
      intros _ _. exact Hfiles.
Qed.

(** X16. Dumping an open buffer again to a place that has been dumped to
    succeeds with the same message and leaves the bytes of the later
    buffer in the file; with the same bytes the disk does not change at
    all. *)
Theorem dump_model_again (name root message : string) (s s' : store)
    (later : BytesIO) :
  dump_model name root s = (Ok message, s') ->
  closed later = false ->
  exists s'' : store,
    dump_model name root {| disk := disk s'; model_buffer := later |}
    = (Ok message, s'')
    /\ file_at (disk s'') (Pathlib.parse root </> get_model_file name)
       = Some (getvalue later)
    /\ (getvalue later = getvalue (model_buffer s) -> disk s'' = disk s').
Proof.
  intros Hdump Hopen.
  destruct (dump_model_returns _ _ _ _ _ Hdump) as (Hmsg & _ & Hdir & Hfile).
  rewrite dump_model_steps. cbv zeta. cbn [disk model_buffer].
  unfold dir_at in Hdir. unfold file_at in Hfile.
  destruct (resolve (disk s') (Pathlib.parse root)) as [dloc|] eqn:Hres;
    [|discriminate].
  destruct (inodes (disk s') !! dloc) as [[|]|] eqn:Ed; try discriminate.
  rewrite (mkdir_exist_ok_ready _ _ _ Hres) by (intros data; congruence).
  rewrite (set_inode_dir_id _ _ Ed).
  destruct (resolve (disk s') (Pathlib.parse root </> get_model_file name))
    as [loc|] eqn:Hloc; [|discriminate].
  destruct (inodes (disk s') !! loc) as [[old|]|] eqn:El; try discriminate.
  injection Hfile as ->. rewrite Hopen.
  eexists. split; [now rewrite Hmsg|]. cbn [disk].
  split.
  - apply file_at_written; [exact Hloc | congruence].
  - intros ->. destruct (disk s') as [t c]. unfold set_inode. cbn in *.
    f_equal. now apply insert_id.
Qed.

(** X27. A closed buffer costs the old model: for a site name without a
    slash, when the root and the place of the model file are as a dump
    needs them, [dump_model] of a buffer that has been closed raises
    [ValueError] only after the file has been opened for writing, and
    leaves the model file empty, whatever it held. *)
Theorem dump_model_closed_buffer (name root : string) (s : store)
    (dloc : list string) :
  PyStr.has_char "/" name = false ->
  closed (model_buffer s) = true ->
  resolve (disk s) (Pathlib.parse root) = Ok dloc ->
  (forall data, inodes (disk s) !! dloc <> Some (File data)) ->
  inodes (disk s) !! (dloc ++ [get_model_file name]) <> Some Directory ->
  exists s' : store,
    dump_model name root s = (Raise ValueError, s')
    /\ model_buffer s' = model_buffer s
    /\ file_at (disk s') (Pathlib.parse root </> get_model_file name) = Some [].
Proof.
  intros Hname Hclosed Hres Hfree Hfile.
  rewrite dump_model_steps. cbv zeta.
  rewrite (mkdir_exist_ok_ready _ _ _ Hres Hfree).
  set (fs1 := set_inode dloc Directory (disk s)).
  assert (Hloc : resolve fs1 (Pathlib.parse root </> get_model_file name)
                 = Ok (dloc ++ [get_model_file name])).
  { rewrite (model_path_parts _ _ Hname). unfold resolve.
    change (start fs1 _) with (start (disk s) (Pathlib.parse root)).
    cbn [Pathlib.parts]. rewrite walk_app.
    erewrite walk_mono; [| |exact Hres].
    - cbn [walk fs1 set_inode inodes].
      now rewrite lookup_insert_eq, get_model_file_not_dotdot.
    - intros l Hl. cbn [fs1 set_inode inodes].
      destruct (decide (dloc = l)) as [->|Hne];
        [apply lookup_insert_eq | now rewrite lookup_insert_ne]. }
  assert (Hnd : inodes fs1 !! (dloc ++ [get_model_file name]) <> Some Directory).
  { cbn [fs1 set_inode inodes]. rewrite lookup_insert_ne; [exact Hfile|].
    intros E. apply (f_equal length) in E. rewrite length_app in E.
    simpl in E. lia. }
  rewrite Hloc, Hclosed.
  destruct (inodes fs1 !! (dloc ++ [get_model_file name])) as [[old|]|] eqn:E;
    [|congruence|];
    (eexists; split; [reflexivity|]; split; [reflexivity|]; cbn [disk];
     apply file_at_written; [exact Hloc | congruence]).
Qed.

End DumpErrors.

(** A root below a regular file. *)
Lemma dump_model_unresolved_root_witness :
  let s := {| disk := {| FS.inodes := {[ [] := FS.Directory;
                                         ["notes"] := FS.File [x01] ]};
                         FS.cwd := [] |};
              model_buffer := {| getvalue := [x02]; tell := 0; closed := false |} |} in
  dump_model "Site" "notes/models" s = (Raise NotADirectoryError, s).
Proof.
  intros s.
  exact (proj1 (dump_model_unresolved_root "Site" "notes/models" s
                  NotADirectoryError eq_refl)).
Defined.

(** The default root, where a file called [models] lies. *)
Lemma dump_model_root_is_file_witness :
  let s := {| disk := {| FS.inodes := {[ [] := FS.Directory;
                                         ["models"] := FS.File [x01] ]};
                         FS.cwd := [] |};
              model_buffer := {| getvalue := [x02]; tell := 0; closed := false |} |} in
  dump_model "Site" default_root s = (Raise FileExistsError, s).
Proof.
  intros s.
  exact (dump_model_root_is_file "Site" default_root s ["models"] [x01]
           eq_refl eq_refl).
Defined.

(** A directory where the model file should go. *)
Lemma dump_model_target_is_directory_witness :
  let s := {| disk := {| FS.inodes := {[ [] := FS.Directory;
                                         ["models"] := FS.Directory;
                                         ["models"; "site_model.jbl"] := FS.Directory ]};
                         FS.cwd := [] |};
              model_buffer := {| getvalue := [x02]; tell := 0; closed := false |} |} in
  dump_model "Site" default_root s = (Raise IsADirectoryError, s).
Proof.
  intros s.
  exact (dump_model_target_is_directory "Site" default_root s ["models"]
           eq_refl eq_refl eq_refl eq_refl).
Defined.

(** A failing dump next to an older model file. *)
Lemma dump_model_keeps_the_rest_witness :
  let s := {| disk := {| FS.inodes := {[ [] := FS.Directory;
                                         ["old_model.jbl"] := FS.File [x01] ]};
                         FS.cwd := [] |};
              model_buffer := {| getvalue := [x02]; tell := 0; closed := false |} |} in
  FS.inodes (disk (snd (dump_model "Site" "out/models" s))) !! ["old_model.jbl"]
  = Some (FS.File [x01]).
Proof.
  intros s.
  apply (proj2 (proj2 (dump_model_keeps_the_rest "Site" "out/models" s))
               eq_refl eq_refl).
  reflexivity.
Defined.

(** A second dump with other bytes. *)
Lemma dump_model_again_witness :
  let s := {| disk := {| FS.inodes := {[ [] := FS.Directory ]}; FS.cwd := [] |};
              model_buffer := {| getvalue := [x01; x02]; tell := 0; closed := false |} |} in
  let later := {| getvalue := [x03]; tell := 1; closed := false |} in
  exists s'',
    dump_model "Site" default_root
      {| disk := disk (snd (dump_model "Site" default_root s));
         model_buffer := later |}
    = (Ok "Model saved in models/site_model.jbl", s'')
    /\ FS.file_at (disk s'') (Pathlib.parse default_root </> get_model_file "Site")
       = Some [x03]
    /\ (getvalue later = [x01; x02] ->
        disk s'' = disk (snd (dump_model "Site" default_root s))).
Proof.
  intros s later.
  refine (dump_model_again "Site" default_root
            "Model saved in models/site_model.jbl" s
            (snd (dump_model "Site" default_root s)) later _ eq_refl).
  vm_compute. reflexivity.
Defined.

(** A closed buffer over an older model file. *)
Lemma dump_model_closed_buffer_witness :
  let s := {| disk := {| FS.inodes := {[ [] := FS.Directory;
                                         ["models"] := FS.Directory;
                                         ["models"; "site_model.jbl"] := FS.File [x01; x02] ]};
                         FS.cwd := [] |};
              model_buffer := {| getvalue := [x03]; tell := 0; closed := true |} |} in
  exists s',
    dump_model "Site" default_root s = (Raise ValueError, s')
    /\ model_buffer s' = model_buffer s
    /\ FS.file_at (disk s') (Pathlib.parse default_root </> get_model_file "Site")
       = Some [].
Proof.
  intros s.
  apply (dump_model_closed_buffer "Site" default_root s ["models"] eq_refl eq_refl eq_refl).
  - intros data. vm_compute. discriminate.
  - vm_compute. discriminate.
Defined.

Section LoadFacts.

Variable estimator : Type.
Variable pickle : estimator -> list byte.
Variable unpickle : list byte -> result estimator.
Variable consumed : list byte -> nat.

(** Loading reads the disk and leaves it as it is. *)
Lemma load_model_pure (p : Pathlib.Path) (fs : FS.filesystem) :
  load_model estimator unpickle consumed p fs
  = (fst (load_model estimator unpickle consumed p fs), fs).
Proof.
  unfold load_model, bind, FS.open_rb, lift.
  destruct (FS.resolve fs p) as [loc|e]; [|reflexivity].
  destruct (FS.inodes fs !! loc) as [[d|]|]; reflexivity.
Qed.

Lemma keys_app {V} (a b : dict string V) : keys (a ++ b) = keys a ++ keys b.
Proof. apply map_app. Qed.

Lemma setitem_fresh {V} (d : dict string V) (k : string) (v : V) :
  k ∉ keys d -> setitem d k v = d ++ [(k, v)].
Proof.
  induction d as [|[k' v'] d IH]; intros Hk; [reflexivity|].
  cbn [setitem]. cbn [keys map fst] in Hk.
  apply not_elem_of_cons in Hk as [Hne Hk].
  destruct (String.eqb_spec k' k) as [->|_]; [congruence|].
  cbn [app]. f_equal. now apply IH.
Qed.

Lemma load_models_loop_spec (folder : Pathlib.Path) (names : list string)
    (models : dict string estimator) (fs : FS.filesystem) :
  NoDup (keys models ++ names) ->
  load_models_loop estimator unpickle consumed folder names models fs
  = (match all_ok (map (fun name =>
                          fst (load_model estimator unpickle consumed
                                 (folder </> get_model_file name) fs))
                       names) with
     | Ok ms => Ok (models ++ combine names ms)
     | Raise e => Raise e
     end, fs).
Proof.
  revert models. induction names as [|name rest IH]; intros models Hnd.
  - cbn. now rewrite app_nil_r.
  - cbn [load_models_loop map all_ok]. unfold bind at 1.
    rewrite load_model_pure.
    destruct (fst (load_model estimator unpickle consumed _ fs)) as [m|e];
      [|reflexivity].
    assert (Hfresh : name ∉ keys models).
    { apply NoDup_app in Hnd as (_ & Hdisj & _). intros Hin.
      apply (Hdisj _ Hin). apply list_elem_of_here. }
    rewrite (setitem_fresh _ _ _ Hfresh), IH.
    + destruct (all_ok _) as [ms|e]; [|reflexivity].
      cbn [combine]. now rewrite <- app_assoc.
    + rewrite keys_app. cbn [keys map fst]. now rewrite <- app_assoc.
Qed.

(** X17. [load_models] on a registry (whose names are distinct, as the
    keys of a dictionary are) leaves the disk as it is; when the file of
    every site loads it returns the models under the names of the sites,
    in the order of the registry, and otherwise it raises the error of the
    first site, in that order, whose file does not load. *)
Theorem load_models_in_order {C : Type} (datasites : dict string C)
    (root : string) (fs : FS.filesystem) :
  NoDup (keys datasites) ->
  load_models estimator unpickle consumed datasites root fs
  = (match all_ok (map (fun name =>
                          fst (load_model estimator unpickle consumed
                                 (Pathlib.parse root </> get_model_file name) fs))
                       (keys datasites)) with
     | Ok ms => Ok (combine (keys datasites) ms)
     | Raise e => Raise e
     end, fs).
Proof.
  intros Hnd. unfold load_models.
  now rewrite load_models_loop_spec.
Qed.

(** X18. A model dumped for a site comes back from [load_models]: after
    [dump_model] has returned for the serialised buffer of an estimator
    that the library pickles and unpickles to itself, [load_models] on the
    registry of that one site and the same root returns the estimator
    under the name of the site. *)
Theorem dump_then_load_models {C : Type} (name root message : string)
    (client : C) (model : estimator) (s s' : store) :
  unpickle (pickle model) = Ok model ->
  model_buffer s = serialize estimator pickle model ->
  dump_model name root s = (Ok message, s') ->
  load_models estimator unpickle consumed [(name, client)] root (disk s')
  = (Ok [(name, model)], disk s').
Proof.
  intros Hrt Hbuf Hdump.
  destruct (dump_model_returns _ _ _ _ _ Hdump) as (_ & _ & _ & Hf).
  rewrite Hbuf, serialize_value in Hf. cbn [getvalue] in Hf.
  unfold load_models. cbn [keys map fst load_models_loop]. unfold bind.
  rewrite (load_model_file _ _ _ _ _ _ Hf), Hrt.
  reflexivity.
Qed.

(** X19. Two sites whose names have one file name share one model: once
    the model of the second has been dumped over the model of the first,
    [load_models] gives both sites the model of the second. *)
Theorem colliding_sites_load_one_model {C : Type} (a b root : string)
    (ca cb : C) (first second : estimator) (s s1 s2 : store)
    (message1 message2 : string) :
  a <> b ->
  get_model_file a = get_model_file b ->
  unpickle (pickle second) = Ok second ->
  model_buffer s = serialize estimator pickle first ->
  dump_model a root s = (Ok message1, s1) ->
  dump_model b root {| disk := disk s1;
                       model_buffer := serialize estimator pickle second |}
  = (Ok message2, s2) ->
  load_models estimator unpickle consumed [(a, ca); (b, cb)] root (disk s2)
  = (Ok [(a, second); (b, second)], disk s2).
Proof.
  intros Hne Hfile Hrt Hbuf Hdump1 Hdump2.
  destruct (dump_model_returns _ _ _ _ _ Hdump2) as (_ & _ & _ & Hf).
  cbn [model_buffer] in Hf. rewrite serialize_value in Hf. cbn [getvalue] in Hf.
  unfold load_models. cbn [keys map fst load_models_loop]. unfold bind.
  rewrite Hfile, (load_model_file _ _ _ _ _ _ Hf), Hrt.
  cbn [setitem]. rewrite (load_model_file _ _ _ _ _ _ Hf), Hrt.
  destruct (String.eqb_spec a b) as [->|_]; [congruence | reflexivity].
Qed.

End LoadFacts.

(** Distinct literal names. *)
Ltac distinct_names :=
  repeat (apply NoDup_cons_2;
          [ let H := fresh in
            intros H;
            repeat (apply elem_of_cons in H as [H|H]; [discriminate|]);
            inversion H
          | ]);
  apply NoDup_nil_2.

(** Three sites, the file of the second of which is missing. *)
Lemma load_models_in_order_witness :
  let unpickle := fun bs : list byte => Ok bs in
  let fs := {| FS.inodes := {[ [] := FS.Directory;
                               ["models"] := FS.Directory;
                               ["models"; "a_model.jbl"] := FS.File [x01];
                               ["models"; "c_model.jbl"] := FS.File [x03] ]};
               FS.cwd := [] |} in
  load_models (list byte) unpickle length [("A", 0); ("C", 2)] default_root fs
  = (Ok [("A", [x01]); ("C", [x03])], fs)
  /\ load_models (list byte) unpickle length [("A", 0); ("B", 1); ("C", 2)]
       default_root fs
     = (Raise FileNotFoundError, fs).
Proof.
  intros unpickle fs. split.
  - refine (load_models_in_order (list byte) unpickle length
              [("A", 0); ("C", 2)] default_root fs _).
    cbn [keys map fst]. distinct_names.
  - refine (load_models_in_order (list byte) unpickle length
              [("A", 0); ("B", 1); ("C", 2)] default_root fs _).
    cbn [keys map fst]. distinct_names.
Defined.

(** One site, dumped and loaded under the default root. *)
Lemma dump_then_load_models_witness :
  let pickle := fun m : list byte => x2a :: m in
  let unpickle := fun bs : list byte =>
    match bs with
    | x2a :: m => Ok m
    | _ => Raise PickleError
    end in
  let s := {| disk := {| FS.inodes := {[ [] := FS.Directory ]}; FS.cwd := [] |};
              model_buffer := serialize (list byte) pickle [x07] |} in
  load_models (list byte) unpickle length [("Site A", 0)] default_root
    (disk (snd (dump_model "Site A" default_root s)))
  = (Ok [("Site A", [x07])], disk (snd (dump_model "Site A" default_root s))).
Proof.
  intros pickle unpickle s.
  refine (dump_then_load_models (list byte) pickle unpickle length
            "Site A" default_root "Model saved in models/site_a_model.jbl" 0 [x07]
            s (snd (dump_model "Site A" default_root s)) eq_refl eq_refl _).
  vm_compute. reflexivity.
Defined.

(** The sites ["Site A"] and ["site_a"], dumped one after the other. *)
Lemma colliding_sites_load_one_model_witness :
  let pickle := fun m : list byte => x2a :: m in
  let unpickle := fun bs : list byte =>
    match bs with
    | x2a :: m => Ok m
    | _ => Raise PickleError
    end in
  let s := {| disk := {| FS.inodes := {[ [] := FS.Directory ]}; FS.cwd := [] |};
              model_buffer := serialize (list byte) pickle [x01] |} in
  let s1 := snd (dump_model "Site A" default_root s) in
  let s2 := snd (dump_model "site_a" default_root
                   {| disk := disk s1;
                      model_buffer := serialize (list byte) pickle [x02] |}) in
  load_models (list byte) unpickle length [("Site A", 0); ("site_a", 1)]
    default_root (disk s2)
  = (Ok [("Site A", [x02]); ("site_a", [x02])], disk s2).
Proof.
  intros pickle unpickle s s1 s2.
  refine (colliding_sites_load_one_model (list byte) pickle unpickle length
            "Site A" "site_a" default_root 0 1 [x01] [x02] s s1 s2
            "Model saved in models/site_a_model.jbl"
            "Model saved in models/site_a_model.jbl" _ eq_refl eq_refl eq_refl _ _).
  - discriminate.
  - vm_compute. reflexivity.
  - vm_compute. reflexivity.
Defined.

(** ** Plotting helpers *)

Section ConfusionMatrixLayout.

Import Plots.

Variable matrix : Type.
Variable n_classes : matrix -> nat.

(** The matrices the loop draws are those of the first entries, as many as
    there are places. *)
Lemma zip_matrices {A} (coords : list A) (cms : dict string matrix) :
  map (fun p => snd (snd p)) (zip coords (items cms))
  = values (take (length coords) cms).
Proof.
  unfold items, values. revert cms.
  induction coords as [|c coords IH]; intros [|[n m] cms]; try reflexivity.
  cbn [zip map length take snd]. now rewrite IH.
Qed.

Lemma zip_nonempty {A} (c : A) (coords : list A) (cms : dict string matrix) :
  cms <> [] -> zip (c :: coords) (items cms) <> [].
Proof. destruct cms; [congruence | discriminate]. Qed.

(** The loop over matrices of two classes goes through and leaves [disp]
    at the last of them. *)
Lemma draw_all_two_class (pairs : list ((nat * nat) * (string * matrix)))
    (fig : Figure matrix) (disp : option matrix) :
  Forall (fun m => n_classes m = 2) (map (fun p => snd (snd p)) pairs) ->
  exists fig',
    draw_all matrix n_classes pairs fig disp
    = Ok (fig', match last pairs with
                | Some p => Some (snd (snd p))
                | None => disp
                end).
Proof.
  revert fig disp. induction pairs as [|[coords [name m]] rest IH];
    intros fig disp Hall.
  - eexists. reflexivity.
  - cbn [map snd] in Hall. inversion Hall as [|? ? Hm Hrest]; subst.
    destruct (draw_one_two_class matrix n_classes coords name m fig Hm)
      as [fig1 Hone].
    cbn [draw_all]. rewrite Hone.
    destruct (IH fig1 (Some m) Hrest) as [fig' Hrun].
    exists fig'. rewrite Hrun. f_equal. f_equal.
    destruct rest as [|p rest']; [reflexivity|].
    change (last ((coords, (name, m)) :: p :: rest')) with (last (p :: rest')).
    destruct (last (p :: rest')) eqn:E; [reflexivity|].
    apply last_None in E. discriminate.
Qed.

(** The loop raises at the first matrix that has not two classes. *)
Lemma draw_all_other (pairs : list ((nat * nat) * (string * matrix)))
    (fig : Figure matrix) (disp : option matrix) :
  Exists (fun m => n_classes m <> 2) (map (fun p => snd (snd p)) pairs) ->
  draw_all matrix n_classes pairs fig disp = Raise ValueError.
Proof.
  revert fig disp. induction pairs as [|[coords [name m]] rest IH];
    intros fig disp Hex; [inversion Hex|].
  cbn [draw_all].
  destruct (Nat.eq_dec (n_classes m) 2) as [Hm|Hm].
  - destruct (draw_one_two_class matrix n_classes coords name m fig Hm)
      as [fig1 Hone].
    rewrite Hone. apply IH.
    cbn [map snd] in Hex. inversion Hex as [? ? H0|? ? H0]; subst;
      [contradiction | exact H0].
  - now rewrite draw_one_other.
Qed.

Lemma plot_raises (cms : dict string matrix) (title : option string) :
  Exists (fun m => n_classes m <> 2) (values (take 4 cms)) ->
  plot_all_confusion_matrices matrix n_classes cms title = Raise ValueError.
Proof.
  intros Hex. unfold plot_all_confusion_matrices.
  rewrite draw_all_other; [reflexivity|].
  now rewrite zip_matrices.
Qed.

Lemma plot_returns (cms : dict string matrix) (title : option string) :
  cms <> [] ->
  Forall (fun m => n_classes m = 2) (values (take 4 cms)) ->
  is_ok (plot_all_confusion_matrices matrix n_classes cms title) = true.
Proof.
  intros Hne Hall. unfold plot_all_confusion_matrices.
  destruct (draw_all_two_class (zip (product2 (range 2)) (items cms))
              (subplots matrix 2 2) None) as [fig Hrun].
  { now rewrite zip_matrices. }
  rewrite Hrun.
  destruct (last (zip (product2 (range 2)) (items cms))) eqn:E; [reflexivity|].
  apply last_None in E. now apply zip_nonempty in E.
Qed.

(** X20. [plot_all_confusion_matrices] returns a figure for every mapping
    that is not empty and whose first four matrices have two classes,
    whatever its size; it raises [ValueError] when one of the first four
    matrices has another number of classes, the two labels not fitting its
    ticks; and it raises [UnboundLocalError] for the empty mapping, where
    the loop never assigns [disp]. *)
Theorem plot_all_confusion_matrices_returns
    (cms : dict string matrix) (title : option string) :
  (cms = [] ->
   plot_all_confusion_matrices matrix n_classes cms title = Raise UnboundLocalError)
  /\ (cms <> [] ->
      Forall (fun m => n_classes m = 2) (values (take 4 cms)) ->
      is_ok (plot_all_confusion_matrices matrix n_classes cms title) = true)
  /\ (Exists (fun m => n_classes m <> 2) (values (take 4 cms)) ->
      plot_all_confusion_matrices matrix n_classes cms title = Raise ValueError).
Proof.
  split; [intros ->; reflexivity|].
  split; [apply plot_returns | apply plot_raises].
Qed.

(** X21. Matrices after the fourth are ignored without a word: the figure
    is the figure of the first four. *)
Theorem plot_all_confusion_matrices_first_four
    (cms : dict string matrix) (title : option string) :
  plot_all_confusion_matrices matrix n_classes cms title
  = plot_all_confusion_matrices matrix n_classes (take 4 cms) title.
Proof.
  destruct cms as [|[n1 m1] [|[n2 m2] [|[n3 m3] [|[n4 m4] rest]]]];
    reflexivity.
Qed.

(** X22. The figure that comes back: the matrix of round [i] (up to four)
    is in row [i / 2], column [i mod 2], under its name as title, with the
    labels ["Absence"] and ["Presence"], no x label, the y label only in
    the first column and no colour bar of its own; the places of the grid
    beyond the matrices are blank; the one colour bar of the figure is that
    of the last matrix drawn; the title above is set only for a title that
    is neither [None] nor empty. *)
Theorem plot_all_confusion_matrices_layout
    (cms : dict string matrix) (title : option string) (fig : Figure matrix) :
  plot_all_confusion_matrices matrix n_classes cms title = Ok fig ->
  (forall i name m,
      i < 4 -> cms !! i = Some (name, m) ->
      fig_axes matrix fig !! (i / 2, i mod 2) = Some (drawn_axes i name m))
  /\ (forall i,
        length cms <= i -> i < 4 ->
        fig_axes matrix fig !! (i / 2, i mod 2) = Some (blank_axes matrix))
  /\ size (fig_axes matrix fig) = 4
  /\ fig_colorbar matrix fig = snd <$> last (take 4 cms)
  /\ fig_suptitle matrix fig = (if truthy title then title else None)
  /\ fig_texts matrix fig = ["Predicted label"].
Proof.
  intros Hplot.
  assert (Htwo : Forall (fun m => n_classes m = 2) (values (take 4 cms))).
  { apply Forall_forall. intros m Hm.
    destruct (Nat.eq_dec (n_classes m) 2) as [|Hne]; [assumption|].
    rewrite plot_raises in Hplot; [discriminate|].
    apply Exists_exists. eauto. }
  revert Hplot.
  destruct cms as [|[n1 m1] [|[n2 m2] [|[n3 m3] [|[n4 m4] rest]]]];
    [discriminate|..];
    cbn [values take map snd] in Htwo;
    repeat match goal with
           | H : Forall _ (_ :: _) |- _ =>
               let E := fresh "E" in
               apply Forall_cons in H as [E H]; cbn beta in E
           end;
    unfold plot_all_confusion_matrices, draw_all, draw_one, display_plot;
    cbn [items zip product2 range seq flat_map map app length];
    repeat match goal with
           | E : n_classes _ = 2 |- _ => rewrite E; clear E
           end;
    intros [= <-];
    (split; [intros [|[|[|[|i]]]] name m Hi Hlk; try lia;
               try discriminate; injection Hlk as <- <-; reflexivity|]);
    (split; [intros [|[|[|[|i]]]] Hlen Hi; cbn [length] in Hlen; try lia;
               reflexivity|]);
    repeat split; reflexivity.
Qed.

End ConfusionMatrixLayout.

(** Five matrices of two classes, and a matrix of three classes among
    two; a matrix is its list of rows. *)
Lemma plot_all_confusion_matrices_returns_witness :
  let two := [[50; 3]; [4; 43]] in
  let three := [[9; 1; 0]; [2; 7; 1]; [0; 3; 8]] in
  is_ok (Plots.plot_all_confusion_matrices (list (list nat)) length
           [("rf", two); ("svm", two); ("mlp", two); ("knn", two); ("nb", two)]
           None) = true
  /\ Plots.plot_all_confusion_matrices (list (list nat)) length
       [("rf", two); ("svm", three)] None
     = Raise ValueError.
Proof.
  intros two three. split.
  - apply (proj1 (proj2 (plot_all_confusion_matrices_returns (list (list nat)) length
                           [("rf", two); ("svm", two); ("mlp", two); ("knn", two);
                            ("nb", two)] None))).
    + discriminate.
    + repeat constructor.
  - apply (proj2 (proj2 (plot_all_confusion_matrices_returns (list (list nat)) length
                           [("rf", two); ("svm", three)] None))).
    apply Exists_cons_tl, Exists_cons_hd. cbn. lia.
Defined.

(** Two matrices: the second row of the grid stays blank. *)
Lemma plot_all_confusion_matrices_layout_witness :
  let a := [[50; 3]; [4; 43]] in
  let b := [[48; 5]; [6; 41]] in
  exists fig,
    Plots.plot_all_confusion_matrices (list (list nat)) length
      [("rf", a); ("svm", b)] (Some "") = Ok fig
    /\ Plots.fig_axes _ fig !! (0, 1) = Some (drawn_axes 1 "svm" b)
    /\ Plots.fig_axes _ fig !! (1, 0) = Some (Plots.blank_axes _)
    /\ Plots.fig_colorbar _ fig = Some b
    /\ Plots.fig_suptitle _ fig = None.
Proof.
  intros a b.
  destruct (Plots.plot_all_confusion_matrices (list (list nat)) length
              [("rf", a); ("svm", b)] (Some ""))
    as [fig|e] eqn:E; [|discriminate].
  exists fig. split; [reflexivity|].
  destruct (plot_all_confusion_matrices_layout _ _ _ _ _ E)
    as (Hdrawn & Hblank & _ & Hbar & Htitle & _).
  split; [apply (Hdrawn 1 "svm" b); [lia | reflexivity]|].
  split; [apply (Hblank 2); simpl; lia|].
  split; [exact Hbar | exact Htitle].
Defined.

Section MetricsShape.

Import Plots.

Variable float : Type.

Lemma getitem_raises {V} (d : dict string V) (k : string) (e : exn) :
  getitem d k = Raise e -> e = KeyError.
Proof.
  induction d as [|[k' v] d IH]; cbn [getitem]; [congruence|].
  destruct (String.eqb k' k); [discriminate | exact IH].
Qed.

Lemma accuracies_raises (metrics : list (dict string float)) (e : exn) :
  accuracies float metrics = Raise e -> e = KeyError.
Proof.
  unfold accuracies. induction metrics as [|m ms IH]; cbn [map all_ok]; [discriminate|].
  destruct (getitem m "accuracy") as [a|e'] eqn:E.
  - destruct (all_ok _) as [r|e'']; [discriminate|].
    intros [= <-]. now apply IH.
  - intros [= <-]. exact (getitem_raises _ _ _ E).
Qed.

Lemma all_ok_length {A} (l : list (result A)) (r : list A) :
  all_ok l = Ok r -> length r = length l.
Proof.
  revert r. induction l as [|[a|e] l IH]; intros r; cbn [all_ok].
  - now intros [= <-].
  - destruct (all_ok l) as [r'|]; [|discriminate].
    intros [= <-]. cbn [length]. now rewrite (IH r').
  - discriminate.
Qed.

Lemma series_line_lengths (qm : string * list (dict string float)) :
  is_ok (accuracies float (snd qm)) = true ->
  length (line_x float (series_line float qm))
  = length (line_y float (series_line float qm)).
Proof.
  unfold series_line, accuracy_values. cbn [line_x line_y]. rewrite length_seq.
  destruct (accuracies float (snd qm)) as [r|] eqn:E; [|discriminate].
  intros _. unfold accuracies in E. apply all_ok_length in E.
  now rewrite E, length_map.
Qed.

(** The whole of [plot_fl_metrics] on well-formed metrics that are not
    empty. *)
Lemma plot_fl_metrics_chart
    (fl_metrics : dict string (list (dict string float)))
    (title : string) (p : pyplot float) (qm : string * list (dict string float)) :
  last fl_metrics = Some qm ->
  well_formed float fl_metrics = true ->
  plot_fl_metrics float fl_metrics title p
  = (Ok tt,
     {| current := finished_chart fl_metrics title (seq 1 (length (snd qm)));
        shown := shown float p
                 ++ [finished_chart fl_metrics title (seq 1 (length (snd qm)))] |}).
Proof.
  intros Hlast Hwf.
  unfold plot_fl_metrics. unfold bind at 1. cbn [plt_figure on_current].
  unfold bind at 1. unfold items. rewrite (plot_series_lines _ _ _ _ Hwf), Hlast.
  cbv [bind plt_title plt_xlabel plt_ylabel plt_xticks plt_ylim plt_grid
       plt_legend plt_tight_layout plt_show on_current local ret
       current shown lines Plots.title xlabel ylabel xticks ylim grid legend
       tight add_lines blank_chart finished_chart].
  reflexivity.
Qed.

(** The loop stops at the first question with a record that lacks its
    accuracy. *)
Lemma plot_series_stops
    (before after : dict string (list (dict string float)))
    (q : string) (ms : list (dict string float))
    (epochs : option (list nat)) (p : pyplot float) :
  well_formed float before = true ->
  is_ok (accuracies float ms) = false ->
  plot_series float (before ++ (q, ms) :: after) epochs p
  = (Raise KeyError,
     {| current := add_lines float (map (series_line float) before) (current float p);
        shown := shown float p |}).
Proof.
  intros Hwf Hbad. revert epochs p.
  induction before as [|[q0 ms0] rest IH]; intros epochs p.
  - cbn [app plot_series map]. unfold bind at 1. rewrite comprehension_lift.
    fold (accuracies float ms).
    destruct (accuracies float ms) as [acc|e] eqn:E; [discriminate|].
    rewrite (accuracies_raises _ _ E), add_lines_nil. now destruct p.
  - cbn [well_formed forallb snd] in Hwf. apply andb_true_iff in Hwf as [Hms Hrest].
    cbn [app plot_series]. unfold bind at 1. rewrite comprehension_lift.
    fold (accuracies float ms0).
    destruct (accuracies float ms0) as [acc|e] eqn:Eacc; [|discriminate].
    unfold bind at 1. cbn [plt_plot on_current].
    rewrite (IH Hrest). cbn [current shown]. f_equal. f_equal. cbn [map].
    unfold series_line at 2, accuracy_values. cbn [fst snd]. rewrite Eacc.
    unfold add_lines. cbn [lines Plots.title xlabel ylabel xticks ylim grid legend tight].
    now rewrite <- app_assoc.
Qed.

(** X23. When a record of some question has no accuracy,
    [plot_fl_metrics] raises [KeyError] and shows nothing; the lines of the
    questions in front of the first such question are already on the
    current figure, which has no title, labels, ticks or limits yet. *)
Theorem plot_fl_metrics_missing_accuracy
    (before after : dict string (list (dict string float)))
    (q : string) (ms : list (dict string float))
    (title : string) (p : pyplot float) :
  well_formed float before = true ->
  is_ok (accuracies float ms) = false ->
  plot_fl_metrics float (before ++ (q, ms) :: after) title p
  = (Raise KeyError,
     {| current := add_lines float (map (series_line float) before) (blank_chart float);
        shown := shown float p |}).
Proof.
  intros Hwf Hbad.
  unfold plot_fl_metrics. unfold bind at 1. cbn [plt_figure on_current].
  unfold bind at 1. unfold items.
  now rewrite (plot_series_stops _ _ _ _ _ _ Hwf Hbad).
Qed.

(** X24. On well-formed metrics that are not empty the chart shown has one
    line per question, labelled with the questions in the order of the
    mapping, each with as many x values as y values (one per epoch
    record), under the given title, with the axis labels ["Epoch"] and
    ["Accuracy"], a grid and a legend. *)
Theorem plot_fl_metrics_lines
    (fl_metrics : dict string (list (dict string float)))
    (title : string) (p : pyplot float) :
  fl_metrics <> [] ->
  well_formed float fl_metrics = true ->
  exists chart : Chart float,
    plot_fl_metrics float fl_metrics title p
    = (Ok tt, {| current := chart; shown := shown float p ++ [chart] |})
    /\ map (line_label float) (lines float chart) = keys fl_metrics
    /\ map (fun l => length (line_x float l)) (lines float chart)
       = map (fun qm => length (snd qm)) fl_metrics
    /\ Forall (fun l => length (line_x float l) = length (line_y float l))
              (lines float chart)
    /\ Plots.title float chart = Some title
    /\ xlabel float chart = Some "Epoch"
    /\ ylabel float chart = Some "Accuracy"
    /\ grid float chart = true
    /\ legend float chart = true.
Proof.
  intros Hne Hwf.
  destruct (last fl_metrics) as [qm|] eqn:Hlast;
    [|apply last_None in Hlast; contradiction].
  eexists. split; [exact (plot_fl_metrics_chart _ _ _ _ Hlast Hwf)|].
  cbn [finished_chart lines Plots.title xlabel ylabel grid legend].
  split; [|split; [|split; [|repeat split]]].
  - unfold keys. rewrite map_map. apply map_ext. now intros [q ms].
  - rewrite map_map. apply map_ext. intros [q ms].
    cbn [series_line line_x snd]. apply length_seq.
  - apply Forall_map. rewrite Forall_forall. intros qm' Hin.
    apply series_line_lengths.
    unfold well_formed in Hwf. rewrite forallb_forall in Hwf.
    apply Hwf. now apply list_elem_of_In.
Qed.

Lemma seq_subseteq (n m : nat) : seq 1 n ⊆ seq 1 m <-> n <= m.
Proof.
  split.
  - intros Hsub. destruct n as [|n]; [lia|].
    assert (Hin : S n ∈ seq 1 (S n)) by (apply elem_of_seq; lia).
    apply Hsub, elem_of_seq in Hin. lia.
  - intros Hle k Hk. apply elem_of_seq in Hk. apply elem_of_seq. lia.
Qed.

(** X25. The ticks are those of the last question only: on well-formed
    metrics that are not empty, the ticks are the epochs of the last
    question of the mapping, and every epoch of every plotted line has a
    tick exactly when no question has more epochs than that last
    question. *)
Theorem plot_fl_metrics_ticks_cover
    (fl_metrics : dict string (list (dict string float)))
    (title : string) (p : pyplot float) :
  fl_metrics <> [] ->
  well_formed float fl_metrics = true ->
  exists (chart : Chart float) (ticks : list nat),
    plot_fl_metrics float fl_metrics title p
    = (Ok tt, {| current := chart; shown := shown float p ++ [chart] |})
    /\ xticks float chart = Some ticks
    /\ Some ticks = (fun qm => seq 1 (length (snd qm))) <$> last fl_metrics
    /\ (Forall (fun l => line_x float l ⊆ ticks) (lines float chart)
        <-> Forall (fun qm => length (snd qm) <= length ticks) fl_metrics).
Proof.
  intros Hne Hwf.
  destruct (last fl_metrics) as [qm|] eqn:Hlast;
    [|apply last_None in Hlast; contradiction].
  eexists _, _. split; [exact (plot_fl_metrics_chart _ _ _ _ Hlast Hwf)|].
  cbn [finished_chart lines xticks]. split; [reflexivity|].
  split; [reflexivity|].
  rewrite Forall_map, length_seq.
  apply Forall_iff. intros [q ms]. cbn [series_line line_x snd].
  apply seq_subseteq.
Qed.

End MetricsShape.

(** The second question has a record without accuracy. *)
Lemma plot_fl_metrics_missing_accuracy_witness :
  let p := {| Plots.current := Plots.blank_chart nat; Plots.shown := [] |} in
  Plots.plot_fl_metrics nat
    ([("q1", [[("accuracy", 1)]; [("accuracy", 2)]])]
     ++ ("q2", [[("loss", 3)]]) :: [("q3", [[("accuracy", 4)]])])
    Plots.default_title p
  = (Raise KeyError,
     {| Plots.current :=
          Plots.add_lines nat
            [{| Plots.line_x := [1; 2]; Plots.line_y := [1; 2];
                Plots.line_label := "q1" |}]
            (Plots.blank_chart nat);
        Plots.shown := [] |}).
Proof.
  intros p.
  exact (plot_fl_metrics_missing_accuracy nat
           [("q1", [[("accuracy", 1)]; [("accuracy", 2)]])]
           [("q3", [[("accuracy", 4)]])] "q2" [[("loss", 3)]]
           Plots.default_title p eq_refl eq_refl).
Defined.

(** Two questions with three and one epochs. *)
Lemma plot_fl_metrics_lines_witness :
  let epoch := fun a : nat => [("loss", 0); ("accuracy", a)] in
  let fl_metrics := [("q1", [epoch 1; epoch 2; epoch 3]); ("q2", [epoch 5])] in
  let p := {| Plots.current := Plots.blank_chart nat; Plots.shown := [] |} in
  exists chart,
    Plots.plot_fl_metrics nat fl_metrics Plots.default_title p
    = (Ok tt, {| Plots.current := chart; Plots.shown := [] ++ [chart] |})
    /\ map (Plots.line_label nat) (Plots.lines nat chart) = ["q1"; "q2"]
    /\ map (fun l => length (Plots.line_x nat l)) (Plots.lines nat chart) = [3; 1].
Proof.
  intros epoch fl_metrics p.
  destruct (plot_fl_metrics_lines nat fl_metrics Plots.default_title p)
    as (chart & Hrun & Hlabels & Hx & _); [discriminate | reflexivity |].
  exists chart. split; [exact Hrun|]. split; [exact Hlabels | exact Hx].
Defined.

(** The last question is the shorter one: the epochs 2 and 3 of the first
    have no tick. *)
Lemma plot_fl_metrics_ticks_cover_witness :
  let epoch := fun a : nat => [("loss", 0); ("accuracy", a)] in
  let fl_metrics := [("q1", [epoch 1; epoch 2; epoch 3]); ("q2", [epoch 5])] in
  let p := {| Plots.current := Plots.blank_chart nat; Plots.shown := [] |} in
  exists chart ticks,
    Plots.plot_fl_metrics nat fl_metrics Plots.default_title p
    = (Ok tt, {| Plots.current := chart; Plots.shown := [] ++ [chart] |})
    /\ Plots.xticks nat chart = Some ticks
    /\ Some ticks = Some [1]
    /\ (Forall (fun l => Plots.line_x nat l ⊆ ticks) (Plots.lines nat chart)
        <-> Forall (fun qm => length (snd qm) <= length ticks) fl_metrics).
Proof.
  intros epoch fl_metrics p.
  apply (plot_fl_metrics_ticks_cover nat fl_metrics Plots.default_title p);
    [discriminate | reflexivity].
Defined.

Section DefaultRoot.

(** X26. With the default root the path in the confirmation is
    [models/<file name>]: for a site name without a slash, a call that
    returns says ["Model saved in models/"] followed by the file name, the
    leading [./] of the root being dropped. *)
Theorem dump_model_default_message (name message : string) (s s' : store) :
  PyStr.has_char "/" name = false ->
  dump_model name default_root s = (Ok message, s') ->
  message = "Model saved in models/" +:+ get_model_file name.
Proof.
  intros Hname Hdump.
  destruct (dump_model_returns _ _ _ _ _ Hdump) as (-> & _).
  rewrite (model_path_parts _ _ Hname). reflexivity.
Qed.

End DefaultRoot.

(** The default call in an empty working directory. *)
Lemma dump_model_default_message_witness :
  let s := {| disk := {| FS.inodes := {[ [] := FS.Directory ]}; FS.cwd := [] |};
              model_buffer := {| getvalue := [x01]; tell := 0; closed := false |} |} in
  fst (dump_model "Lab 1" default_root s) = Ok "Model saved in models/lab_1_model.jbl"
  /\ "Model saved in models/lab_1_model.jbl"
     = "Model saved in models/" +:+ get_model_file "Lab 1".
Proof.
  intros s. split; [vm_compute; reflexivity|].
  apply (dump_model_default_message "Lab 1"
           "Model saved in models/lab_1_model.jbl" s
           (snd (dump_model "Lab 1" default_root s)) eq_refl).
  vm_compute. reflexivity.
Defined.
